(** * Airfind: BLE advertisement classification, proximity estimation and
      the per-screen device registries.

    A shallow embedding of [services/RealBLEService.ts] (the classifier, the
    path-loss estimator, the scan callback, favourites persistence) and of the
    merge and toggle handlers of the scanner and map screens, followed by the
    properties of the engine specification.

    Conventions.
    - JavaScript strings are modelled by [string] (8-bit characters); case
      mapping is the ASCII one, which is what [toLowerCase]/[toUpperCase]
      do on advertised names and UUIDs made of ASCII characters.
    - JavaScript numbers holding an RSSI are integers ([Z]); the distance is
      a real number: [Math.pow], [Math.min] and [Math.max] are read as the
      exact functions on [R], so rounding of IEEE doubles is outside the
      model.
    - [new Date()] is an explicit clock reading passed by the caller. *)

From Stdlib Require Import Strings.String Strings.Ascii Strings.Byte ZArith NArith List Bool Lia.
From Stdlib Require Import Reals Lra DecimalString Sorting.Sorted Sorting.Permutation.
From stdpp Require Import gmap strings list.

Local Open Scope string_scope.
Local Open Scope Z_scope.

(** ** JavaScript string primitives *)

Module Js.

Definition lower_char (c : ascii) : ascii :=
  let n := N_of_ascii c in
  if ((65 <=? n) && (n <=? 90))%N then ascii_of_N (n + 32) else c.

Definition upper_char (c : ascii) : ascii :=
  let n := N_of_ascii c in
  if ((97 <=? n) && (n <=? 122))%N then ascii_of_N (n - 32) else c.

Fixpoint map_chars (f : ascii -> ascii) (s : string) : string :=
  match s with
  | EmptyString => EmptyString
  | String c s' => String (f c) (map_chars f s')
  end.

Definition toLowerCase : string -> string := map_chars lower_char.
Definition toUpperCase : string -> string := map_chars upper_char.

(** [s.startsWith(p)] *)
Fixpoint startsWith (s p : string) {struct p} : bool :=
  match p with
  | EmptyString => true
  | String a p' =>
      match s with
      | EmptyString => false
      | String b s' => Ascii.eqb a b && startsWith s' p'
      end
  end.

(** [s.includes(needle)] *)
Fixpoint includes (s needle : string) : bool :=
  startsWith s needle ||
  match s with
  | EmptyString => false
  | String _ s' => includes s' needle
  end.

(** [s.substring(i, j)]: both indices are clamped to the length and
    swapped when [i > j]. *)
Definition substring (s : string) (i j : nat) : string :=
  let len := String.length s in
  let i' := Nat.min i len in
  let j' := Nat.min j len in
  String.substring (Nat.min i' j') (Nat.max i' j' - Nat.min i' j') s.

(** Truthiness of a [string | null] value: [null] and [''] are falsy. *)
Definition truthy (o : option string) : bool :=
  match o with
  | Some (String _ _) => true
  | _ => false
  end.

(** [a || b] on [string | null] operands. *)
Definition or (a b : option string) : option string :=
  if truthy a then a else b.

(** [a || 'literal'] *)
Definition or_lit (a : option string) (b : string) : string :=
  match a with
  | Some (String c s) => String c s
  | _ => b
  end.

(** [arr.some(p)] *)
Definition some {A} (p : A -> bool) (arr : list A) : bool := existsb p arr.

End Js.

(** ** Node's [Buffer]: base64 input, hex output, little-endian reads *)

Module Buffer.

(** Value of one character of the base64 alphabet (the URL-safe
    characters [-] and [_] are accepted as well). *)
Definition unbase64 (c : ascii) : option N :=
  let n := N_of_ascii c in
  if ((65 <=? n) && (n <=? 90))%N then Some (n - 65)%N
  else if ((97 <=? n) && (n <=? 122))%N then Some (n - 71)%N
  else if ((48 <=? n) && (n <=? 57))%N then Some (n + 4)%N
  else if ((n =? 43) || (n =? 45))%N then Some 62%N
  else if ((n =? 47) || (n =? 95))%N then Some 63%N
  else None.

(** The six-bit values of the input: characters outside the alphabet are
    skipped and the input ends at the first padding character. *)
Fixpoint sextets (s : string) : list N :=
  match s with
  | EmptyString => []
  | String c s' =>
      if Ascii.eqb c "=" then []
      else match unbase64 c with
           | Some v => v :: sextets s'
           | None => sextets s'
           end
  end.

Definition byte_of_N (n : N) : byte := byte_of_ascii (ascii_of_N n).

Fixpoint octets (l : list N) : list byte :=
  match l with
  | a :: b :: c :: d :: rest =>
      byte_of_N (a * 4 + b / 16)
      :: byte_of_N ((b mod 16) * 16 + c / 4)
      :: byte_of_N ((c mod 4) * 64 + d)
      :: octets rest
  | [a; b; c] =>
      [byte_of_N (a * 4 + b / 16); byte_of_N ((b mod 16) * 16 + c / 4)]
  | [a; b] => [byte_of_N (a * 4 + b / 16)]
  | _ => []
  end%N.

(** [Buffer.from(data, 'base64')] *)
Definition from_base64 (data : string) : list byte := octets (sextets data).

Definition hex_digit (n : N) : ascii :=
  if (n <? 10)%N then ascii_of_N (48 + n) else ascii_of_N (87 + n).

Definition hex_byte (b : byte) : string :=
  let n := Byte.to_N b in
  String (hex_digit (n / 16)) (String (hex_digit (n mod 16)) EmptyString).

(** [buffer.toString('hex')] *)
Fixpoint toString_hex (buf : list byte) : string :=
  match buf with
  | [] => EmptyString
  | b :: rest => hex_byte b ++ toString_hex rest
  end.

(** [buffer.readUInt16LE(0)]; [None] is the [RangeError] raised on a
    buffer shorter than two bytes. *)
Definition readUInt16LE (buf : list byte) : option N :=
  match buf with
  | b0 :: b1 :: _ => Some (Byte.to_N b0 + 256 * Byte.to_N b1)%N
  | _ => None
  end.

End Buffer.

(** ** The radio library's [Device] and the application's [BLEDevice] *)

Module Device.
Record t : Type := mk {
  id : string;
  name : option string;
  localName : option string;
  rssi : option Z;
  manufacturerData : option string;   (* base64 *)
  serviceUUIDs : option (list string);
}.
End Device.

Inductive DeviceType : Type := airtag | iphone | android | headphones | unknown.

Module BLEDevice.
Record t : Type := mk {
  id : string;
  name : string;
  type : DeviceType;
  distance : R;
  signalStrength : Z;
  isConnected : bool;
  isFavorite : bool;
  lastSeen : Z;
  batteryLevel : option Z;
  manufacturer : string;
  serviceUUIDs : list string;
  advertisementData : option string;
}.

(** [{ ...device, isFavorite: v }] *)
Definition with_isFavorite (v : bool) (d : t) : t :=
  mk (id d) (name d) (type d) (distance d) (signalStrength d) (isConnected d)
     v (lastSeen d) (batteryLevel d) (manufacturer d) (serviceUUIDs d)
     (advertisementData d).

(** [{ ...device, isConnected: v }] *)
Definition with_isConnected (v : bool) (d : t) : t :=
  mk (id d) (name d) (type d) (distance d) (signalStrength d) v
     (isFavorite d) (lastSeen d) (batteryLevel d) (manufacturer d)
     (serviceUUIDs d) (advertisementData d).
End BLEDevice.

(** ** [RealBLEService] *)

Module RealBLEService.

(** Durable key-value storage.  A stored value is the list of strings that
    [JSON.stringify] serialised and [JSON.parse] gives back. *)
Abbreviation AsyncStorage := (gmap string (list string)).

Record t : Type := mk {
  isScanning : bool;
  discoveredDevices : gmap string BLEDevice.t;
}.

Definition parseManufacturerData (data manufacturerId : string) : option string :=
  let buffer := Buffer.from_base64 data in
  let hex := Buffer.toString_hex buffer in
  if Js.startsWith (Js.toLowerCase hex) (Js.toLowerCase manufacturerId)
  then Some hex
  else None.

Definition findMyServiceUUID := "7DFC9000-7D1C-4951-86AA-8D9728F8D66C".
Definition handoffServiceUUID := "D0611E78-BBB4-4591-A5F8-487910AE4366".
Definition airdropServiceUUID := "7BA94D80-5DAD-4544-8CF4-370E39BB1CA0".

Definition audioServiceUUIDs : list string :=
  [ "0000110B-0000-1000-8000-00805F9B34FB";   (* Audio Sink *)
    "0000110A-0000-1000-8000-00805F9B34FB";   (* Audio Source *)
    "0000111E-0000-1000-8000-00805F9B34FB" ]. (* Hands-Free *)

Definition androidManufacturerIds : list string :=
  [ "00e0";   (* Google *)
    "0075";   (* Samsung *)
    "001d" ]. (* Qualcomm *)

(** [serviceUUIDs.some(uuid => uuid.toUpperCase().includes(target.toUpperCase()))] *)
Definition hasService (serviceUUIDs : list string) (target : string) : bool :=
  Js.some (fun uuid => Js.includes (Js.toUpperCase uuid) (Js.toUpperCase target))
          serviceUUIDs.

Definition isAirTag (manufacturerData : string) (serviceUUIDs : list string) : bool :=
  let hasAppleData := Js.startsWith manufacturerData "004c" in
  let hasFindMyService := hasService serviceUUIDs findMyServiceUUID in
  let hasAirTagPattern :=
    (8 <=? String.length manufacturerData)%nat &&
    String.eqb (Js.substring manufacturerData 4 6) "12" in
  hasAppleData && (hasFindMyService || hasAirTagPattern).

Definition isIPhone (manufacturerData : string) (serviceUUIDs : list string)
    (name : string) : bool :=
  let hasHandoff := hasService serviceUUIDs handoffServiceUUID in
  let hasAirDrop := hasService serviceUUIDs airdropServiceUUID in
  let nameIndicatesIPhone := Js.includes name "iphone" || Js.includes name "ios" in
  hasHandoff || hasAirDrop || nameIndicatesIPhone.

Definition isAudioDevice (serviceUUIDs : list string) (name : string) : bool :=
  let hasAudioService :=
    Js.some (fun uuid => Js.some (fun audioUUID =>
               Js.includes (Js.toUpperCase uuid) (Js.toUpperCase audioUUID))
             audioServiceUUIDs) serviceUUIDs in
  let nameIndicatesAudio :=
    Js.includes name "airpods" || Js.includes name "headphones" ||
    Js.includes name "speaker" || Js.includes name "beats" in
  hasAudioService || nameIndicatesAudio.

(** The argument is the advertisement's own (base64) string. *)
Definition isAndroidDevice (manufacturerData : option string) (name : string) : bool :=
  match manufacturerData with
  | Some (String c s) =>
      let hasAndroidManufacturer :=
        Js.some (fun id => Js.startsWith (Js.toLowerCase (String c s)) id)
                androidManufacturerIds in
      let nameIndicatesAndroid :=
        Js.includes name "android" || Js.includes name "pixel" ||
        Js.includes name "samsung" in
      hasAndroidManufacturer || nameIndicatesAndroid
  | _ => false
  end.

Definition lowerName (device : Device.t) : string :=
  Js.toLowerCase
    (Js.or_lit (Js.or (Device.localName device) (Device.name device)) "").

Definition uuidsOf (device : Device.t) : list string :=
  match Device.serviceUUIDs device with Some l => l | None => [] end.

Definition identifyDeviceType (device : Device.t) : DeviceType :=
  let name := lowerName device in
  let manufacturerData := Device.manufacturerData device in
  let serviceUUIDs := uuidsOf device in
  (* the checks that follow the Apple block *)
  let afterApple :=
    if isAudioDevice serviceUUIDs name then headphones
    else if isAndroidDevice manufacturerData name then android
    else unknown in
  match manufacturerData with
  | Some (String c s) =>
      match parseManufacturerData (String c s) "004c" with
      | Some (String c' s') =>
          let appleManufacturerData := String c' s' in
          if isAirTag appleManufacturerData serviceUUIDs then airtag
          else if isIPhone appleManufacturerData serviceUUIDs name then iphone
          else afterApple
      | _ => afterApple
      end
  | _ => afterApple
  end.

Definition extractBatteryLevel (device : Device.t) : option Z := None.

Definition manufacturerMap (manufacturerId : N) : option string :=
  if (manufacturerId =? 0x004C)%N then Some "Apple"
  else if (manufacturerId =? 0x00E0)%N then Some "Google"
  else if (manufacturerId =? 0x0075)%N then Some "Samsung"
  else if (manufacturerId =? 0x001D)%N then Some "Qualcomm"
  else if (manufacturerId =? 0x000F)%N then Some "Broadcom"
  else None.

Definition extractManufacturer (device : Device.t) : string :=
  match Device.manufacturerData device with
  | Some (String c s) =>
      let buffer := Buffer.from_base64 (String c s) in
      match Buffer.readUInt16LE buffer with
      | Some manufacturerId => Js.or_lit (manufacturerMap manufacturerId) "Unknown"
      | None => "Unknown"
      end
  | _ => "Unknown"
  end.

Definition defaultTxPower : Z := -59.

Definition calculateDistance (rssi : Z) (txPower : Z) : R :=
  if rssi =? 0 then (-1)%R
  else
    let ratio := ((IZR txPower - IZR rssi) / 20)%R in
    let distance := Rpower 10 ratio in
    Rmax (1 / 10) (Rmin 100 distance).

(** [device.rssi || -100]: [null] and [0] are falsy. *)
Definition rssiOrDefault (rssi : option Z) : Z :=
  match rssi with
  | Some r => if r =? 0 then -100 else r
  | None => -100
  end.

Definition processBLEDevice (now : Z) (device : Device.t) : BLEDevice.t :=
  let deviceType := identifyDeviceType device in
  let distance := calculateDistance (rssiOrDefault (Device.rssi device)) defaultTxPower in
  {| BLEDevice.id := Device.id device;
     BLEDevice.name :=
       Js.or_lit (Js.or (Device.localName device) (Device.name device)) "Unknown Device";
     BLEDevice.type := deviceType;
     BLEDevice.distance := distance;
     BLEDevice.signalStrength := rssiOrDefault (Device.rssi device);
     BLEDevice.isConnected := false;
     BLEDevice.isFavorite := false;
     BLEDevice.lastSeen := now;
     BLEDevice.batteryLevel := extractBatteryLevel device;
     BLEDevice.manufacturer := extractManufacturer device;
     BLEDevice.serviceUUIDs := uuidsOf device;
     BLEDevice.advertisementData := Device.manufacturerData device |}.

Definition stopScanning (svc : t) : t :=
  if isScanning svc then mk false (discoveredDevices svc) else svc.

(** What the radio hands to the scan callback: an error, or a device
    (possibly [null]) together with the clock reading at that moment. *)
Inductive ScanEvent : Type :=
| ScanFailed
| ScanFound (device : option Device.t) (now : Z).

(** The callback given to [startDeviceScan]; [onDeviceFound] is the
    listener of the screen that started the scan, acting on that screen's
    state [S]. *)
Definition scanCallback {S : Type} (onDeviceFound : BLEDevice.t -> S -> S)
    (ev : ScanEvent) (st : t * S) : t * S :=
  let (svc, screen) := st in
  match ev with
  | ScanFailed => (stopScanning svc, screen)
  | ScanFound None _ => (svc, screen)
  | ScanFound (Some device) now =>
      let bleDevice := processBLEDevice now device in
      (mk (isScanning svc) (<[Device.id device := bleDevice]> (discoveredDevices svc)),
       onDeviceFound bleDevice screen)
  end.

(** How a call of [startScanning] ends. *)
Inductive StartResult : Type :=
| AlreadyScanning
| StartError (message : string)
| ScanArmed.

(** [startScanning]: [hasPermissions] is the answer of
    [requestPermissions], [poweredOn] whether [bleManager.state()] is
    [PoweredOn].  A service that is scanning returns at once: its map is kept
    and the caller's listener is not handed to the radio.  A refused
    permission and a radio that is off throw, leaving the service as it was.
    Only [ScanArmed] clears the map and hands the caller's listener to
    [startDeviceScan]. *)
Definition startScanning (hasPermissions poweredOn : bool) (svc : t)
    : StartResult * t :=
  if isScanning svc then (AlreadyScanning, svc)
  else if negb hasPermissions
       then (StartError "Bluetooth permissions not granted", svc)
  else if negb poweredOn then (StartError "Bluetooth is not enabled", svc)
  else (ScanArmed, mk true ∅).

(** The service before its first scan. *)
Definition initial : t := mk false ∅.

Definition favoritesKey := "ble_favorites".

(** [write_ok] is the outcome of [AsyncStorage.setItem]; a rejected write
    is logged and leaves the store as it was. *)
Definition saveFavorites (write_ok : bool) (favorites : list string)
    (storage : AsyncStorage) : AsyncStorage :=
  if write_ok then <[favoritesKey := favorites]> storage else storage.

Definition loadFavorites (storage : AsyncStorage) : list string :=
  match storage !! favoritesKey with
  | Some favorites => favorites
  | None => []
  end.

End RealBLEService.

(** ** Array helpers shared by the screens *)

Module DeviceList.

(** [ids.includes(id)] on an array of strings. *)
Definition includesId (ids : list string) (id : string) : bool :=
  existsb (String.eqb id) ids.

(** One step of a stable sort under the comparator
    [(a, b) => a.distance - b.distance]: [device], which stood before the
    elements of [sorted], goes in front of the first element whose distance is
    not smaller than its own. *)
Fixpoint insertByDistance (device : BLEDevice.t) (sorted : list BLEDevice.t)
    : list BLEDevice.t :=
  match sorted with
  | [] => [device]
  | x :: rest =>
      if Rle_dec (BLEDevice.distance device) (BLEDevice.distance x)
      then device :: x :: rest
      else x :: insertByDistance device rest
  end.

(** [devices.sort((a, b) => a.distance - b.distance)]; the sort of the
    language is stable, and a stable sort has one result only. *)
Definition sortByDistance (devices : list BLEDevice.t) : list BLEDevice.t :=
  fold_right insertByDistance [] devices.

(** Decimal rendering of an integer inside a template string. *)
Definition decimal (n : Z) : string := NilZero.string_of_int (Z.to_int n).

End DeviceList.

(** ** The scanner screen ([app/(tabs)/index.tsx]) *)

Module ScannerScreen.

(** The listener given to [bleService.startScanning]: the updater passed
    to [setDevices]. *)
Definition onDeviceFound (device : BLEDevice.t) (prev : list BLEDevice.t)
    : list BLEDevice.t :=
  match list_find (fun d => BLEDevice.id d = BLEDevice.id device) prev with
  | Some (existingIndex, existing) =>
      <[existingIndex :=
          BLEDevice.with_isFavorite (BLEDevice.isFavorite existing) device]> prev
  | None => prev ++ [device]
  end.

Definition flipFavorite (deviceId : string) (device : BLEDevice.t) : BLEDevice.t :=
  if String.eqb (BLEDevice.id device) deviceId
  then BLEDevice.with_isFavorite (negb (BLEDevice.isFavorite device)) device
  else device.

(** [toggleFavorite]: [devices] is the list the handler closed over at
    render time, [st] the current list and the store.  The list is updated
    through [setDevices(prev => ...)], the saved identifiers are computed
    from [devices]. *)
Definition toggleFavorite (devices : list BLEDevice.t) (deviceId : string)
    (write_ok : bool) (st : list BLEDevice.t * RealBLEService.AsyncStorage)
    : list BLEDevice.t * RealBLEService.AsyncStorage :=
  let (prev, storage) := st in
  let updatedDevices := map (flipFavorite deviceId) devices in
  let favoriteIds :=
    map BLEDevice.id (List.filter BLEDevice.isFavorite updatedDevices) in
  (map (flipFavorite deviceId) prev,
   RealBLEService.saveFavorites write_ok favoriteIds storage).

(** A press on the heart of a rendered card: the handler of the latest
    render, whose [devices] is the current list. *)
Definition pressFavorite (deviceId : string) (write_ok : bool)
    (st : list BLEDevice.t * RealBLEService.AsyncStorage) :=
  toggleFavorite (fst st) deviceId write_ok st.

(** The list update of a successful [connectToDevice]. *)
Definition markConnected (deviceId : string) (prev : list BLEDevice.t)
    : list BLEDevice.t :=
  map (fun device =>
         if String.eqb (BLEDevice.id device) deviceId
         then BLEDevice.with_isConnected true device else device) prev.

(** The list update after [disconnectFromDevice]. *)
Definition markDisconnected (deviceId : string) (prev : list BLEDevice.t)
    : list BLEDevice.t :=
  map (fun device =>
         if String.eqb (BLEDevice.id device) deviceId
         then BLEDevice.with_isConnected false device else device) prev.


(** Rendering the list: [devices.sort(...)] puts the cards in order and, as
    [sort] works in place, leaves the state array itself in that order. *)
Definition render (devices : list BLEDevice.t) : list BLEDevice.t :=
  DeviceList.sortByDistance devices.

(** [startScanning] of the screen, on the service and the screen's list.
    With Bluetooth reported disabled it shows an alert and returns ([None]).
    Otherwise the list is emptied before the service is asked to scan,
    whatever the service then answers; the screen's listener receives the
    scan callbacks only when the answer is [ScanArmed]. *)
Definition startScanning (isBluetoothEnabled hasPermissions poweredOn : bool)
    (st : RealBLEService.t * list BLEDevice.t)
    : option RealBLEService.StartResult * (RealBLEService.t * list BLEDevice.t) :=
  let (svc, devices) := st in
  if negb isBluetoothEnabled then (None, (svc, devices))
  else
    let (result, svc') := RealBLEService.startScanning hasPermissions poweredOn svc in
    (Some result, (svc', [])).

End ScannerScreen.

(** ** The map screen *)

Module MapScreen.

Definition onDeviceFound (device : BLEDevice.t) (prev : list BLEDevice.t)
    : list BLEDevice.t :=
  match list_find (fun d => BLEDevice.id d = BLEDevice.id device) prev with
  | Some (existingIndex, _) => <[existingIndex := device]> prev
  | None => prev ++ [device]
  end.

(** The signal wording of [handleDevicePress]. *)
Definition signalQuality (signalStrength : Z) : string :=
  if -60 <? signalStrength then "Strong"
  else if -70 <? signalStrength then "Moderate"
  else "Weak".

(** [checkPermissionsAndStartScanning], on the service and the screen's
    list; [hasLocation] is whether [getCurrentLocation] gave a location.
    Without one the service is not asked ([None]).  The screen's list is
    never emptied: a later scan goes on from the records of the earlier
    ones. *)
Definition checkPermissionsAndStartScanning (hasLocation hasPermissions poweredOn : bool)
    (st : RealBLEService.t * list BLEDevice.t)
    : option RealBLEService.StartResult * (RealBLEService.t * list BLEDevice.t) :=
  let (svc, devices) := st in
  if hasLocation then
    let (result, svc') := RealBLEService.startScanning hasPermissions poweredOn svc in
    (Some result, (svc', devices))
  else (None, (svc, devices)).

End MapScreen.

(** ** The favourites screen *)

Module FavoritesScreen.

(** [loadFavorites]: keep the records whose identifier is stored. *)
Definition loadFavorites (favoriteIds : list string) (prev : list BLEDevice.t)
    : list BLEDevice.t :=
  List.filter (fun device => DeviceList.includesId favoriteIds (BLEDevice.id device))
              prev.

(** The listener of [startScanningForFavorites]; [favoriteIds] is the list
    loaded when the scan was started. *)
Definition onDeviceFound (favoriteIds : list string) (device : BLEDevice.t)
    (prev : list BLEDevice.t) : list BLEDevice.t :=
  if DeviceList.includesId favoriteIds (BLEDevice.id device) then
    match list_find (fun d => BLEDevice.id d = BLEDevice.id device) prev with
    | Some (existingIndex, _) =>
        <[existingIndex := BLEDevice.with_isFavorite true device]> prev
    | None => prev ++ [BLEDevice.with_isFavorite true device]
    end
  else prev.

(** The [Remove] button of the alert opened by [removeFavorite]:
    [favorites] is the list of the render that opened the alert, which the
    handler closed over; [st] is the list as it is when the button is pressed,
    and the store.  The scan goes on while the alert is open, so the two
    lists may differ. *)
Definition removeFavorite (favorites : list BLEDevice.t) (deviceId : string)
    (write_ok : bool) (st : list BLEDevice.t * RealBLEService.AsyncStorage)
    : list BLEDevice.t * RealBLEService.AsyncStorage :=
  let (prev, storage) := st in
  let remainingFavorites :=
    map BLEDevice.id
        (List.filter (fun d => negb (String.eqb (BLEDevice.id d) deviceId)) favorites) in
  (List.filter (fun d => negb (String.eqb (BLEDevice.id d) deviceId)) prev,
   RealBLEService.saveFavorites write_ok remainingFavorites storage).

Definition getSignalColor (signalStrength : Z) : string :=
  if -50 <? signalStrength then "#34C759"
  else if -70 <? signalStrength then "#FF9500"
  else "#FF3B30".

(** What [locateDevice] shows. *)
Inductive LocateAlert : Type :=
| DeviceTooFar
| DeviceLocation (signalQuality : string).

Definition locateDevice (device : BLEDevice.t) : LocateAlert :=
  if negb (BLEDevice.isConnected device)
     && (if Rlt_dec 50 (BLEDevice.distance device) then true else false)
  then DeviceTooFar
  else
    let signalQuality :=
      if -60 <? BLEDevice.signalStrength device then "Strong"
      else if -70 <? BLEDevice.signalStrength device then "Moderate"
      else "Weak" in
    DeviceLocation signalQuality.

End FavoritesScreen.

(** ** The device card *)

Module DeviceCard.

Definition getDeviceTypeLabel (type : DeviceType) : string :=
  match type with
  | airtag => "AirTag"
  | iphone => "iPhone"
  | android => "Android Phone"
  | headphones => "Headphones"
  | unknown => "Unknown Device"
  end.

Definition getSignalColor (signalStrength : Z) : string :=
  if -50 <? signalStrength then "#34C759"
  else if -60 <? signalStrength then "#30D158"
  else if -70 <? signalStrength then "#FF9500"
  else if -80 <? signalStrength then "#FF6B35"
  else "#FF3B30".

Definition getSignalStrength (signalStrength : Z) : string :=
  if -50 <? signalStrength then "Excellent"
  else if -60 <? signalStrength then "Good"
  else if -70 <? signalStrength then "Fair"
  else if -80 <? signalStrength then "Poor"
  else "Very Poor".

Definition getDistanceColor (distance : R) : string :=
  if Rlt_dec distance 2 then "#34C759"
  else if Rlt_dec distance 5 then "#30D158"
  else if Rlt_dec distance 10 then "#FF9500"
  else if Rlt_dec distance 20 then "#FF6B35"
  else "#FF3B30".

(** [Math.floor((Date.now() - device.lastSeen.getTime()) / 1000)], both
    clock readings in milliseconds. *)
Definition timeSinceLastSeen (now lastSeen : Z) : Z := (now - lastSeen) / 1000.

Definition lastSeenText (now lastSeen : Z) : string :=
  let t := timeSinceLastSeen now lastSeen in
  if t <? 10 then "Live"
  else if t <? 60 then DeviceList.decimal t ++ "s ago"
  else DeviceList.decimal (t / 60) ++ "m ago".

(** The text of the status badge. *)
Definition statusText (now : Z) (device : BLEDevice.t) : string :=
  if BLEDevice.isConnected device then "Connected"
  else if timeSinceLastSeen now (BLEDevice.lastSeen device) <? 10 then "Live"
  else "Discovered".

End DeviceCard.

(** ** The map view *)

Module RealMapView.

Record Coordinate : Type := mkCoordinate { latitude : R; longitude : R }.

(** [estimateDeviceLocation]; [random] is the value drawn by
    [Math.random()]. *)
Definition estimateDeviceLocation (random : R) (device : BLEDevice.t)
    (userLoc : Coordinate) : Coordinate :=
  let angle := (random * 2 * PI)%R in
  let distanceInDegrees := (BLEDevice.distance device / 111320)%R in
  {| latitude := (latitude userLoc + distanceInDegrees * cos angle)%R;
     longitude := (longitude userLoc + distanceInDegrees * sin angle)%R |}.

(** Radius of the range circle drawn around a device. *)
Definition rangeRadius (device : BLEDevice.t) : R :=
  Rmax (BLEDevice.distance device) 5.

Definition getDeviceColor (device : BLEDevice.t) : string :=
  if BLEDevice.isConnected device then "#34C759"
  else match BLEDevice.type device with
       | airtag => "#007AFF"
       | iphone => "#007AFF"
       | android => "#34C759"
       | headphones => "#AF52DE"
       | unknown => "#8E8E93"
       end.

(** The web fallback: the first five devices and the count of the others. *)
Definition webShown (devices : list BLEDevice.t) : list BLEDevice.t :=
  firstn 5 devices.

Definition webMore (devices : list BLEDevice.t) : option nat :=
  if (5 <? length devices)%nat then Some (length devices - 5)%nat else None.

End RealMapView.

(** ** A scan session: the service's map and the listening screen's list *)

Definition Session : Type := RealBLEService.t * list BLEDevice.t.

(** One scan callback of the service, delivered to the listener
    [onDeviceFound] that [startDeviceScan] was given. *)
Definition observe (onDeviceFound : BLEDevice.t -> list BLEDevice.t -> list BLEDevice.t)
    (st : Session) (ev : RealBLEService.ScanEvent) : Session :=
  RealBLEService.scanCallback onDeviceFound ev st.

Definition observeAll onDeviceFound (evs : list RealBLEService.ScanEvent)
    (st : Session) : Session :=
  fold_left (observe onDeviceFound) evs st.

(** A session of the scanner screen seen with its renders: the radio's
    events interleaved with renders of the list. *)
Inductive ScreenEvent : Type :=
| Heard (ev : RealBLEService.ScanEvent)
| Rendered.

Definition scannerStep (st : Session) (ev : ScreenEvent) : Session :=
  match ev with
  | Heard ev => observe ScannerScreen.onDeviceFound st ev
  | Rendered => (fst st, ScannerScreen.render (snd st))
  end.

Definition scannerRun (evs : list ScreenEvent) (st : Session) : Session :=
  fold_left scannerStep evs st.

(** The devices of a sequence of radio events, in the order heard. *)
Definition heardIds (evs : list RealBLEService.ScanEvent) : list string :=
  omap (fun ev => match ev with
                  | RealBLEService.ScanFound (Some device) _ => Some (Device.id device)
                  | _ => None
                  end) evs.

(** The radio events that carry a device. *)
Definition isAdvertisement (ev : RealBLEService.ScanEvent) : bool :=
  match ev with
  | RealBLEService.ScanFound (Some _) _ => true
  | _ => false
  end.

(** The invariant that ties the service's map to the listening screen's
    list. *)
Definition inStep (st : Session) : Prop :=
  NoDup (map BLEDevice.id (snd st))
  /\ (forall (k : string) (r : BLEDevice.t),
        RealBLEService.discoveredDevices (fst st) !! k = Some r
        <-> r ∈ snd st /\ BLEDevice.id r = k)
  /\ size (RealBLEService.discoveredDevices (fst st)) = length (snd st).

(** The payload begins with the bytes [00 4c]. *)
Definition applePrefixed (payload : list byte) : Prop :=
  exists rest : list byte, payload = x00 :: x4c :: rest.

(** The payload has at least four bytes and its third byte is [12]. *)
Definition typeMarked (payload : list byte) : Prop :=
  exists (b0 b1 b3 : byte) (tail : list byte), payload = b0 :: b1 :: x12 :: b3 :: tail.

(** The records of a list that carry a given identifier. *)
Definition recordsOf (deviceId : string) (l : list BLEDevice.t) : list BLEDevice.t :=
  List.filter (fun d => String.eqb (BLEDevice.id d) deviceId) l.

(** The identifiers of the favourite records of a list, as a set. *)
Definition favoriteSet (l : list BLEDevice.t) : gset string :=
  list_to_set (map BLEDevice.id (List.filter BLEDevice.isFavorite l)).

(** The persisted identifiers, as a set. *)
Definition storedSet (storage : RealBLEService.AsyncStorage) : gset string :=
  list_to_set (RealBLEService.loadFavorites storage).

(** ** The classifier's rules 1 and 2 as the specification words them

    Used to state the priority property on the specification's own
    patterns.  The type marker is read at byte offset 2, that is from the
    fifth hex character on.  "Vendor id equals 0x004C" has two readings in
    the specification: its first scenario gives that vendor id to a payload
    whose hex begins with [004c], its data model decodes the first two bytes
    little-endian.  Both are written down. *)

Module Spec.

Definition hasTypeMarker (payloadHex : string) : bool :=
  Js.startsWith (Js.substring payloadHex 4 (String.length payloadHex)) "12".

Definition trackerEvidence (payloadHex : string) (serviceIds : list string) : bool :=
  RealBLEService.hasService serviceIds RealBLEService.findMyServiceUUID ||
  hasTypeMarker payloadHex.

Definition phoneIOSEvidence (serviceIds : list string) (lowerName : string) : bool :=
  RealBLEService.hasService serviceIds RealBLEService.handoffServiceUUID ||
  RealBLEService.hasService serviceIds RealBLEService.airdropServiceUUID ||
  Js.includes lowerName "iphone" || Js.includes lowerName "ios".

(** Reading of the first scenario. *)
Definition isPlatformMaker (payloadHex : string) : bool :=
  Js.startsWith payloadHex "004c".

Definition trackerPattern (payloadHex : string) (serviceIds : list string) : bool :=
  isPlatformMaker payloadHex && trackerEvidence payloadHex serviceIds.

Definition phoneIOSPattern (payloadHex : string) (serviceIds : list string)
    (lowerName : string) : bool :=
  isPlatformMaker payloadHex && phoneIOSEvidence serviceIds lowerName.

(** Reading of the data model. *)
Definition vendorId (payload : list byte) : option N :=
  match payload with
  | b0 :: b1 :: _ => Some (Byte.to_N b0 + 256 * Byte.to_N b1)%N
  | _ => None
  end.

Definition isPlatformMakerLE (payload : list byte) : bool :=
  match vendorId payload with
  | Some v => (v =? 0x004C)%N
  | None => false
  end.

Definition trackerPatternLE (payload : list byte) (serviceIds : list string) : bool :=
  isPlatformMakerLE payload &&
  trackerEvidence (Buffer.toString_hex payload) serviceIds.

Definition phoneIOSPatternLE (payload : list byte) (serviceIds : list string)
    (lowerName : string) : bool :=
  isPlatformMakerLE payload && phoneIOSEvidence serviceIds lowerName.

End Spec.

(** ** Concrete advertisements and records used as test inputs *)

Module Examples.

(** Payload bytes [00 4c 12 19]. *)
Definition taggedPayload : Device.t :=
  Device.mk "A" None None (Some (-70)) (Some "AEwSGQ==") (Some []).

(** Payload bytes [00 4c 12]: the marker byte is the last byte. *)
Definition shortPayloadPhone : Device.t :=
  Device.mk "B" (Some "John's iPhone") None (Some (-60)) (Some "AEwS") None.

(** Payload bytes [4c 00 12 19], the company identifier 0x004C in the
    little-endian byte order of a Bluetooth advertisement, together with the
    Find-My service. *)
Definition littleEndianApple : Device.t :=
  Device.mk "C" None None (Some (-55)) (Some "TAASGQ==")
            (Some ["7DFC9000-7D1C-4951-86AA-8D9728F8D66C"]).

(** Payload bytes [4c 00 12 19] under an iPhone name. *)
Definition littleEndianApplePhone : Device.t :=
  Device.mk "F" (Some "John's iPhone") None (Some (-62)) (Some "TAASGQ==") None.

(** Payload bytes [00 4c 12 19] with an iPhone name and the hand-off service. *)
Definition taggedPhone : Device.t :=
  Device.mk "D" (Some "iPhone") (Some "Anna's iPhone") (Some (-48))
            (Some "AEwSGQ==") (Some ["d0611e78-bbb4-4591-a5f8-487910ae4366"]).

(** The scanner screen's list after one advertisement of [taggedPayload]
    at time 100, a press on its heart and a successful connection. *)
Definition connectedFavoriteList : list BLEDevice.t :=
  ScannerScreen.markConnected "A"
    (fst (ScannerScreen.pressFavorite "A" true
            (ScannerScreen.onDeviceFound
               (RealBLEService.processBLEDevice 100 taggedPayload) [], ∅))).

(** The same device heard again at time 200 with a stronger signal. *)
Definition taggedPayloadAgain : Device.t :=
  Device.mk "A" None None (Some (-50)) (Some "AEwSGQ==") (Some []).

(** The radio reports the sentinel 0 for this device. *)
Definition noSignal : Device.t :=
  Device.mk "E" (Some "Beacon") None (Some 0) None None.

(** A store that remembers a favourite which the current session has not
    marked in memory. *)
Definition staleStorage : RealBLEService.AsyncStorage :=
  {[ RealBLEService.favoritesKey := ["B"] ]}.

(** A store in step with a list without favourites. *)
Definition emptyFavorites : RealBLEService.AsyncStorage :=
  {[ RealBLEService.favoritesKey := [] ]}.

(** The scanner screen's list after one advertisement of [taggedPayload]. *)
Definition oneDeviceList : list BLEDevice.t :=
  ScannerScreen.onDeviceFound (RealBLEService.processBLEDevice 100 taggedPayload) [].

(** The favourites screen's list, with "A" and "C" stored as favourites,
    after an advertisement of "A": the list on which the alert is opened. *)
Definition favoritesOpened : list BLEDevice.t :=
  FavoritesScreen.onDeviceFound ["A"; "C"]
    (RealBLEService.processBLEDevice 100 taggedPayload) [].

(** The same list after "C" has been heard while the alert is open. *)
Definition favoritesNow : list BLEDevice.t :=
  FavoritesScreen.onDeviceFound ["A"; "C"]
    (RealBLEService.processBLEDevice 300 littleEndianApple) favoritesOpened.

(** The store holding the favourites "A" and "C". *)
Definition twoFavorites : RealBLEService.AsyncStorage :=
  {[ RealBLEService.favoritesKey := ["A"; "C"] ]}.

(** The service right after its first scan has been armed (permissions
    granted, radio on), with the list of the screen that armed it, still
    empty. *)
Definition firstScan : Session :=
  (snd (RealBLEService.startScanning true true RealBLEService.initial), []).

End Examples.

(** * Properties *)

(** ** Proximity estimator *)

Section Estimator.

Local Open Scope R_scope.

Import RealBLEService.

Lemma clamp_bounds (x : R) : 1 / 10 <= Rmax (1 / 10) (Rmin 100 x) <= 100.
Proof.
  split; [apply Rmax_l |].
  apply Rmax_lub; [lra | apply Rmin_l].
Qed.

Lemma clamp_mono (x y : R) :
  x <= y -> Rmax (1 / 10) (Rmin 100 x) <= Rmax (1 / 10) (Rmin 100 y).
Proof.
  intros Hxy. apply Rle_max_compat_l. now apply Rle_min_compat_l.
Qed.

Lemma Rpower10_mono (x y : R) : x <= y -> Rpower 10 x <= Rpower 10 y.
Proof. intros Hxy. apply Rle_Rpower; lra. Qed.

Lemma Rpower10_0 : Rpower 10 0 = 1.
Proof. apply Rpower_O; lra. Qed.

Lemma Rpower10_2 : Rpower 10 2 = 100.
Proof.
  change 2 with (INR 2). rewrite Rpower_pow by lra. simpl; lra.
Qed.

Lemma calculateDistance_nonzero (rssi txPower : Z) :
  rssi <> 0%Z ->
  calculateDistance rssi txPower
  = Rmax (1 / 10) (Rmin 100 (Rpower 10 ((IZR txPower - IZR rssi) / 20))).
Proof.
  intros Hnz. unfold calculateDistance.
  destruct (Z.eqb_spec rssi 0); [contradiction | reflexivity].
Qed.

Lemma calculateDistance_range (rssi txPower : Z) :
  rssi <> 0%Z -> 1 / 10 <= calculateDistance rssi txPower <= 100.
Proof.
  intros Hnz. rewrite calculateDistance_nonzero by assumption.
  apply clamp_bounds.
Qed.

Lemma calculateDistance_zero (txPower : Z) : calculateDistance 0 txPower = -1.
Proof. reflexivity. Qed.

(** A signal at least 40 dB below the reference saturates the clamp. *)
Lemma calculateDistance_far (rssi txPower : Z) :
  rssi <> 0%Z -> (txPower - rssi >= 40)%Z -> calculateDistance rssi txPower = 100.
Proof.
  intros Hnz Hfar. rewrite calculateDistance_nonzero by assumption.
  assert (H2 : 2 <= (IZR txPower - IZR rssi) / 20).
  { rewrite <- minus_IZR.
    assert (40 <= IZR (txPower - rssi)) by (apply IZR_le; lia). lra. }
  apply Rpower10_mono in H2. rewrite Rpower10_2 in H2.
  rewrite Rmin_left by assumption. apply Rmax_right; lra.
Qed.

Lemma rssiOrDefault_nonzero (rssi : option Z) : rssiOrDefault rssi <> 0%Z.
Proof.
  unfold rssiOrDefault. destruct rssi as [r |]; [| lia].
  destruct (Z.eqb_spec r 0); lia.
Qed.

(** C4.  For every nonzero signal strength the estimator is the clamped
    path-loss formula: 10 raised to [(reference - signal) / 20], clamped to
    the interval from 0.1 to 100 metres; with the default reference of -59
    a signal of -59 gives exactly 1 metre, hence a value within 0.01 of 1. *)
Theorem estimateDistance_formula (signalStrength referenceStrengthAt1m : Z) :
  signalStrength <> 0%Z ->
  let ratio := (IZR referenceStrengthAt1m - IZR signalStrength) / 20 in
  calculateDistance signalStrength referenceStrengthAt1m
  = Rmax (1 / 10) (Rmin 100 (Rpower 10 ratio))
  /\ 1 / 10 <= calculateDistance signalStrength referenceStrengthAt1m <= 100
  /\ calculateDistance (-59) defaultTxPower = 1
  /\ Rabs (calculateDistance (-59) defaultTxPower - 1) <= 1 / 100.
Proof.
  intros Hnz ratio.
  assert (Hone : calculateDistance (-59) defaultTxPower = 1).
  { rewrite calculateDistance_nonzero by discriminate.
    unfold defaultTxPower.
    replace ((IZR (-59) - IZR (-59)) / 20) with 0 by lra.
    rewrite Rpower10_0, Rmin_right by lra. apply Rmax_right; lra. }
  repeat split.
  - now apply calculateDistance_nonzero.
  - now apply calculateDistance_range.
  - now apply calculateDistance_range.
  - exact Hone.
  - rewrite Hone. replace (1 - 1) with 0 by lra. rewrite Rabs_R0. lra.
Qed.

Lemma estimateDistance_formula_witness :
  (-70 <> 0)%Z /\
  1 / 10 <= calculateDistance (-70) (-59) <= 100.
Proof.
  split; [discriminate |].
  apply (estimateDistance_formula (-70) (-59)). discriminate.
Defined.

(** C6.  Among nonzero signal strengths the estimate never grows when the
    signal gets stronger, and the estimator is a function of its inputs:
    equal inputs give equal outputs. *)
Theorem estimateDistance_monotone (s1 s2 referenceStrengthAt1m : Z) :
  s1 <> 0%Z -> s2 <> 0%Z -> (s1 <= s2)%Z ->
  calculateDistance s2 referenceStrengthAt1m
    <= calculateDistance s1 referenceStrengthAt1m
  /\ (forall s s' r r' : Z,
        s = s' -> r = r' -> calculateDistance s r = calculateDistance s' r').
Proof.
  intros H1 H2 Hle. split.
  - rewrite !calculateDistance_nonzero by assumption.
    apply clamp_mono, Rpower10_mono.
    apply IZR_le in Hle. lra.
  - intros s s' r r' -> ->. reflexivity.
Qed.

Lemma estimateDistance_monotone_witness :
  calculateDistance (-50) (-59) <= calculateDistance (-70) (-59).
Proof.
  apply (estimateDistance_monotone (-70) (-50) (-59)); [discriminate | discriminate | lia].
Defined.

(** Scenario 5 of the specification, the estimator's part: a signal of -50
    gives a strictly shorter distance than a signal of -70. *)
Lemma stronger_signal_shorter_distance :
  calculateDistance (-50) defaultTxPower < calculateDistance (-70) defaultTxPower.
Proof.
  rewrite !calculateDistance_nonzero by discriminate. unfold defaultTxPower.
  replace ((IZR (-59) - IZR (-50)) / 20) with (- 9 / 20) by lra.
  replace ((IZR (-59) - IZR (-70)) / 20) with (11 / 20) by lra.
  assert (Hnear : Rpower 10 (- 9 / 20) < 1).
  { rewrite <- Rpower10_0. apply Rpower_lt; lra. }
  assert (Hfar : 1 < Rpower 10 (11 / 20)).
  { rewrite <- Rpower10_0. apply Rpower_lt; lra. }
  apply Rlt_trans with 1.
  - apply Rmax_lub_lt; [lra |]. apply Rle_lt_trans with (Rpower 10 (- 9 / 20));
      [apply Rmin_r | exact Hnear].
  - apply Rlt_le_trans with (Rmin 100 (Rpower 10 (11 / 20))); [| apply Rmax_r].
    apply Rmin_glb_lt; lra.
Qed.

End Estimator.

(** ** Payload decoding: hex rendering and the vendor prefix *)

Section Payload.

Import RealBLEService.

Lemma map_chars_app (f : ascii -> ascii) (s t : string) :
  Js.map_chars f (s ++ t) = Js.map_chars f s ++ Js.map_chars f t.
Proof. induction s as [| c s IH]; simpl; [reflexivity | now rewrite IH]. Qed.

Lemma hex_byte_lower (b : byte) : Js.toLowerCase (Buffer.hex_byte b) = Buffer.hex_byte b.
Proof. destruct b; reflexivity. Qed.

(** Hex output is already lower case. *)
Lemma toString_hex_lower (buf : list byte) :
  Js.toLowerCase (Buffer.toString_hex buf) = Buffer.toString_hex buf.
Proof.
  induction buf as [| b rest IH]; [reflexivity |].
  simpl. unfold Js.toLowerCase in *.
  rewrite map_chars_app, IH. f_equal. apply hex_byte_lower.
Qed.

Lemma hex_byte_12 (b : byte) : String.eqb (Buffer.hex_byte b) "12" = Byte.eqb b x12.
Proof. destruct b; reflexivity. Qed.

(** The hex prefix [004c] is the byte sequence [00 4c]. *)
Lemma startsWith_004c (buf : list byte) :
  Js.startsWith (Buffer.toString_hex buf) "004c"
  = match buf with
    | b0 :: b1 :: _ => Byte.eqb b0 x00 && Byte.eqb b1 x4c
    | _ => false
    end.
Proof.
  destruct buf as [| b0 [| b1 rest]].
  - reflexivity.
  - destruct b0; reflexivity.
  - destruct b0; try reflexivity. destruct b1; reflexivity.
Qed.

Lemma startsWith_nonempty (s p : string) c :
  Js.startsWith s (String c p) = true -> exists c' s', s = String c' s'.
Proof. destruct s as [| c' s']; [discriminate | eauto]. Qed.

Lemma parseManufacturerData_apple (data : string) :
  parseManufacturerData data "004c"
  = let hex := Buffer.toString_hex (Buffer.from_base64 data) in
    if Js.startsWith hex "004c" then Some hex else None.
Proof.
  unfold parseManufacturerData. rewrite toString_hex_lower. reflexivity.
Qed.

(** The type-marker test of [isAirTag] on a rendered payload: hex characters
    4 and 5 are the third byte, and eight hex characters are four bytes. *)
Lemma airTagPattern_bytes (buf : list byte) :
  let hex := Buffer.toString_hex buf in
  (8 <=? String.length hex)%nat && String.eqb (Js.substring hex 4 6) "12"
  = match buf with
    | _ :: _ :: b2 :: _ :: _ => Byte.eqb b2 x12
    | _ => false
    end.
Proof.
  destruct buf as [| b0 [| b1 [| b2 [| b3 rest]]]]; try reflexivity.
  cbv zeta. rewrite <- hex_byte_12. reflexivity.
Qed.

(** The specification's type-marker test on a payload of four bytes or more. *)
Lemma hasTypeMarker_bytes (b0 b1 b2 b3 : byte) (rest : list byte) :
  Spec.hasTypeMarker (Buffer.toString_hex (b0 :: b1 :: b2 :: b3 :: rest))
  = Byte.eqb b2 x12.
Proof. destruct b2; reflexivity. Qed.

End Payload.

(** ** Device classifier *)

Section Classifier.

Import RealBLEService.

(** What [identifyDeviceType] does once the payload passes the [004c] test:
    the two Apple rules in their order, then the remaining checks. *)
Lemma identifyDeviceType_apple (device : Device.t) (data : string) :
  Device.manufacturerData device = Some data ->
  let hex := Buffer.toString_hex (Buffer.from_base64 data) in
  Js.startsWith hex "004c" = true ->
  identifyDeviceType device
  = if isAirTag hex (uuidsOf device) then airtag
    else if isIPhone hex (uuidsOf device) (lowerName device) then iphone
    else if isAudioDevice (uuidsOf device) (lowerName device) then headphones
    else if isAndroidDevice (Device.manufacturerData device) (lowerName device)
         then android
    else unknown.
Proof.
  intros Hdata hex Hprefix. unfold identifyDeviceType. rewrite Hdata.
  destruct data as [| c s]; [discriminate Hprefix |].
  rewrite parseManufacturerData_apple. cbv zeta. fold hex. rewrite Hprefix.
  destruct (startsWith_nonempty _ _ _ Hprefix) as (c' & s' & Hhex).
  rewrite Hhex. reflexivity.
Qed.

(** Without a payload that passes the [004c] test neither Apple rule fires. *)
Lemma identifyDeviceType_not_apple (device : Device.t) (data : string) :
  Device.manufacturerData device = Some data ->
  Js.startsWith (Buffer.toString_hex (Buffer.from_base64 data)) "004c" = false ->
  identifyDeviceType device
  = if isAudioDevice (uuidsOf device) (lowerName device) then headphones
    else if isAndroidDevice (Device.manufacturerData device) (lowerName device)
         then android
    else unknown.
Proof.
  intros Hdata Hprefix. unfold identifyDeviceType. rewrite Hdata.
  destruct data as [| c s]; [reflexivity |].
  rewrite parseManufacturerData_apple. cbv zeta. rewrite Hprefix. reflexivity.
Qed.

Lemma identifyDeviceType_total (device : Device.t) :
  In (identifyDeviceType device) [airtag; iphone; android; headphones; unknown].
Proof. destruct (identifyDeviceType device); simpl; auto 6. Qed.

(** On a payload that is not exactly three bytes long the specification's
    Tracker pattern and [isAirTag] agree. *)
Lemma trackerPattern_isAirTag (payload : list byte) (serviceIds : list string) :
  length payload <> 3%nat ->
  Spec.trackerPattern (Buffer.toString_hex payload) serviceIds
  = isAirTag (Buffer.toString_hex payload) serviceIds.
Proof.
  intros Hlen.
  unfold Spec.trackerPattern, Spec.trackerEvidence, isAirTag, Spec.isPlatformMaker.
  f_equal. f_equal.
  pose proof (airTagPattern_bytes payload) as Hcode. cbv zeta in Hcode.
  rewrite Hcode.
  destruct payload as [| b0 [| b1 [| b2 [| b3 rest]]]]; try reflexivity.
  - simpl in Hlen. congruence.
  - apply hasTypeMarker_bytes.
Qed.

(** C1, as amended.  The classifier returns one of the five categories on
    every input, and the Tracker rule has priority over the PhoneIOS rule: an
    input whose payload passes the platform-maker test and matches both the
    Tracker pattern (Find-My service, or the type marker 12 at byte offset 2)
    and the PhoneIOS pattern is classified as Tracker and not as PhoneIOS,
    provided the Find-My service is advertised or the payload has at least
    four bytes. *)
Theorem classify_priority (device : Device.t) :
  In (identifyDeviceType device) [airtag; iphone; android; headphones; unknown]
  /\ forall data : string,
       Device.manufacturerData device = Some data ->
       let payload := Buffer.from_base64 data in
       let payloadHex := Buffer.toString_hex payload in
       Spec.trackerPattern payloadHex (uuidsOf device) = true ->
       hasService (uuidsOf device) findMyServiceUUID = true
         \/ (4 <= length payload)%nat ->
       Spec.phoneIOSPattern payloadHex (uuidsOf device) (lowerName device) = true ->
       identifyDeviceType device = airtag /\ identifyDeviceType device <> iphone.
Proof.
  split; [apply identifyDeviceType_total |].
  intros data Hdata payload payloadHex Htracker Hguard _.
  assert (Hprefix : Js.startsWith payloadHex "004c" = true).
  { unfold Spec.trackerPattern, Spec.isPlatformMaker in Htracker.
    now apply andb_true_iff in Htracker as [? _]. }
  assert (Hair : isAirTag payloadHex (uuidsOf device) = true).
  { destruct Hguard as [Hfind | Hlen].
    - unfold isAirTag. rewrite Hprefix, Hfind. reflexivity.
    - unfold payloadHex. rewrite <- trackerPattern_isAirTag by lia. exact Htracker. }
  rewrite (identifyDeviceType_apple device data Hdata Hprefix).
  fold payload payloadHex. rewrite Hair. split; [reflexivity | discriminate].
Qed.

Lemma classify_priority_witness :
  identifyDeviceType Examples.taggedPhone = airtag
  /\ identifyDeviceType Examples.taggedPhone <> iphone.
Proof.
  apply (proj2 (classify_priority Examples.taggedPhone) "AEwSGQ==");
    [reflexivity | reflexivity | right; simpl; lia | reflexivity].
Defined.

(** C1 as stated fails, whichever way "vendor id 0x004C" is read.  Read as
    the hex prefix [004c]: the three-byte payload [00 4c 12] under an iPhone
    name matches the Tracker pattern (type marker at byte offset 2) and the
    PhoneIOS pattern, and is classified as PhoneIOS.  Read little-endian: the
    payload [4c 00 12 19] under an iPhone name matches both patterns and is
    left unclassified. *)
Lemma classify_priority_counterexample :
  (let device := Examples.shortPayloadPhone in
   let payloadHex := Buffer.toString_hex (Buffer.from_base64 "AEwS") in
   Device.manufacturerData device = Some "AEwS"
   /\ payloadHex = "004c12"
   /\ Spec.trackerPattern payloadHex (uuidsOf device) = true
   /\ Spec.phoneIOSPattern payloadHex (uuidsOf device) (lowerName device) = true
   /\ identifyDeviceType device = iphone
   /\ identifyDeviceType device <> airtag)
  /\ (let device := Examples.littleEndianApplePhone in
      let payload := Buffer.from_base64 "TAASGQ==" in
      Device.manufacturerData device = Some "TAASGQ=="
      /\ payload = [x4c; x00; x12; x19]
      /\ Spec.trackerPatternLE payload (uuidsOf device) = true
      /\ Spec.phoneIOSPatternLE payload (uuidsOf device) (lowerName device) = true
      /\ identifyDeviceType device = unknown
      /\ identifyDeviceType device <> airtag).
Proof. repeat split; try reflexivity; discriminate. Qed.

(** The vendor identifier that [extractManufacturer] decodes is the
    little-endian value of the first two payload bytes. *)
Lemma vendorId_little_endian (b0 b1 : byte) (rest : list byte) :
  Buffer.readUInt16LE (b0 :: b1 :: rest)
  = Some (Byte.to_N b0 + 256 * Byte.to_N b1)%N.
Proof. reflexivity. Qed.

Lemma byte_to_N_inj (a b : byte) : Byte.to_N a = Byte.to_N b -> a = b.
Proof.
  intros H. apply (f_equal Byte.of_N) in H.
  rewrite !Byte.of_to_N in H. congruence.
Qed.

(** The classifier's platform-maker test accepts exactly the payloads whose
    little-endian vendor identifier is 0x4C00. *)
Lemma platformMakerTest_vendorId (data : string) :
  parseManufacturerData data "004c" <> None
  <-> Buffer.readUInt16LE (Buffer.from_base64 data) = Some 0x4C00%N.
Proof.
  rewrite parseManufacturerData_apple. cbv zeta. rewrite startsWith_004c.
  destruct (Buffer.from_base64 data) as [| b0 [| b1 rest]]; simpl;
    [split; [congruence | discriminate] .. |].
  destruct (Byte.eqb b0 x00 && Byte.eqb b1 x4c) eqn:E.
  - split; [intros _ | discriminate].
    apply andb_true_iff in E as [E0 E1].
    apply Byte.byte_dec_bl in E0, E1. subst. reflexivity.
  - split; [congruence | intros H; exfalso].
    injection H as H.
    pose proof (Byte.to_N_bounded b0). pose proof (Byte.to_N_bounded b1).
    assert (Byte.to_N b0 = Byte.to_N x00) by (simpl; lia).
    assert (Byte.to_N b1 = Byte.to_N x4c) by (simpl; lia).
    rewrite (byte_to_N_inj b0 x00), (byte_to_N_inj b1 x4c) in E by assumption.
    discriminate E.
Qed.

(** A payload whose little-endian vendor identifier is 0x004C never reaches
    the two Apple rules: its device is classified neither as a tracker nor
    as an iPhone, whatever it advertises. *)
Lemma apple_vendorId_skips_apple_rules (device : Device.t) (data : string) :
  Device.manufacturerData device = Some data ->
  Buffer.readUInt16LE (Buffer.from_base64 data) = Some 0x004C%N ->
  identifyDeviceType device <> airtag /\ identifyDeviceType device <> iphone.
Proof.
  intros Hdata Hid.
  assert (Hprefix :
    Js.startsWith (Buffer.toString_hex (Buffer.from_base64 data)) "004c" = false).
  { destruct (Js.startsWith _ "004c") eqn:E; [exfalso | reflexivity].
    assert (Hparse : parseManufacturerData data "004c" <> None).
    { rewrite parseManufacturerData_apple. cbv zeta. rewrite E. discriminate. }
    apply platformMakerTest_vendorId in Hparse. congruence. }
  rewrite (identifyDeviceType_not_apple device data Hdata Hprefix).
  destruct (isAudioDevice _ _); [split; discriminate |].
  destruct (isAndroidDevice _ _); split; discriminate.
Qed.

(** C2, at the failing input.  The payload [4c 00 12 19] carries the
    little-endian vendor identifier 0x004C, and [extractManufacturer] names
    its maker; the classifier's platform-maker test rejects it, so that the
    device, which also advertises the Find-My service, is left unclassified.
    Conversely the payload [00 4c 12 19], whose little-endian vendor
    identifier is 0x4C00 and whose maker is unknown to [extractManufacturer],
    passes the test and is classified as a tracker. *)
Theorem vendor_test_rejects_little_endian_apple :
  (let device := Examples.littleEndianApple in
   Buffer.toString_hex (Buffer.from_base64 "TAASGQ==") = "4c001219"
   /\ Buffer.readUInt16LE (Buffer.from_base64 "TAASGQ==") = Some 0x004C%N
   /\ extractManufacturer device = "Apple"
   /\ parseManufacturerData "TAASGQ==" "004c" = None
   /\ hasService (uuidsOf device) findMyServiceUUID = true
   /\ identifyDeviceType device = unknown)
  /\ (let device := Examples.taggedPayload in
      Buffer.toString_hex (Buffer.from_base64 "AEwSGQ==") = "004c1219"
      /\ Buffer.readUInt16LE (Buffer.from_base64 "AEwSGQ==") = Some 0x4C00%N
      /\ extractManufacturer device = "Unknown"
      /\ parseManufacturerData "AEwSGQ==" "004c" = Some "004c1219"
      /\ identifyDeviceType device = airtag).
Proof. repeat split; reflexivity. Qed.

(** C9.  An advertisement whose payload hex is [004c1219...] (the vendor
    identifier 0x004C as the classifier reads it, then the type marker 12 at
    byte offset 2) and which advertises no service is classified as Tracker. *)
Theorem tracker_scenario (device : Device.t) (data tail : string) :
  Device.manufacturerData device = Some data ->
  Buffer.toString_hex (Buffer.from_base64 data) = "004c1219" ++ tail ->
  uuidsOf device = [] ->
  identifyDeviceType device = airtag.
Proof.
  intros Hdata Hhex Huuids.
  rewrite (identifyDeviceType_apple device data Hdata);
    rewrite Hhex; [rewrite Huuids |]; reflexivity.
Qed.

(** Scenario 2 of the specification: a payload with the [004c] prefix and no
    type marker, under the name "John's iPhone" and without services, is
    classified as PhoneIOS. *)
Example phone_scenario :
  identifyDeviceType
    (Device.mk "G" (Some "John's iPhone") None (Some (-64)) (Some "AEwQBQ==") None)
  = iphone.
Proof. reflexivity. Qed.

Lemma tracker_scenario_witness :
  identifyDeviceType Examples.taggedPayload = airtag.
Proof.
  apply (tracker_scenario Examples.taggedPayload "AEwSGQ==" ""); reflexivity.
Defined.

End Classifier.

(** ** Merging advertisements into a screen's list *)

Section Merge.

Import RealBLEService.

Implicit Types (device existing : BLEDevice.t) (prev : list BLEDevice.t).

Lemma scanner_merge_nil device : ScannerScreen.onDeviceFound device [] = [device].
Proof. reflexivity. Qed.

Lemma scanner_merge_cons device existing prev :
  ScannerScreen.onDeviceFound device (existing :: prev)
  = if decide (BLEDevice.id existing = BLEDevice.id device)
    then BLEDevice.with_isFavorite (BLEDevice.isFavorite existing) device :: prev
    else existing :: ScannerScreen.onDeviceFound device prev.
Proof.
  unfold ScannerScreen.onDeviceFound. simpl.
  destruct (decide (BLEDevice.id existing = BLEDevice.id device)); [reflexivity |].
  destruct (list_find _ prev) as [[j y] |]; reflexivity.
Qed.

Lemma map_merge_nil device : MapScreen.onDeviceFound device [] = [device].
Proof. reflexivity. Qed.

Lemma map_merge_cons device existing prev :
  MapScreen.onDeviceFound device (existing :: prev)
  = if decide (BLEDevice.id existing = BLEDevice.id device)
    then device :: prev
    else existing :: MapScreen.onDeviceFound device prev.
Proof.
  unfold MapScreen.onDeviceFound. simpl.
  destruct (decide (BLEDevice.id existing = BLEDevice.id device)); [reflexivity |].
  destruct (list_find _ prev) as [[j y] |]; reflexivity.
Qed.

(** C3, as amended.  When the advertisement of an identifier already in the
    scanner screen's list is merged, the record stored in its place is the
    freshly classified record with the stored [isFavorite] put back: the
    favourite flag is preserved, every other field, [isConnected] included
    (always false on a fresh record), is the fresh one, and the other
    positions are untouched.  The map screen stores the fresh record as it
    is. *)
Theorem merge_keeps_isFavorite (now : Z) (advertised : Device.t)
    (prev : list BLEDevice.t) (i : nat) (existing : BLEDevice.t) :
  let fresh := processBLEDevice now advertised in
  list_find (fun d => BLEDevice.id d = BLEDevice.id fresh) prev = Some (i, existing) ->
  exists stored : BLEDevice.t,
    ScannerScreen.onDeviceFound fresh prev !! i = Some stored
    /\ BLEDevice.isFavorite stored = BLEDevice.isFavorite existing
    /\ BLEDevice.isConnected stored = false
    /\ stored = BLEDevice.with_isFavorite (BLEDevice.isFavorite existing) fresh
    /\ (forall j : nat, j <> i ->
          ScannerScreen.onDeviceFound fresh prev !! j = prev !! j)
    /\ MapScreen.onDeviceFound fresh prev !! i = Some fresh.
Proof.
  intros fresh Hfind.
  pose proof Hfind as Hlook. apply list_find_Some in Hlook as (Hlook & _ & _).
  apply lookup_lt_Some in Hlook.
  exists (BLEDevice.with_isFavorite (BLEDevice.isFavorite existing) fresh).
  unfold ScannerScreen.onDeviceFound, MapScreen.onDeviceFound.
  rewrite Hfind. repeat split.
  - now apply list_lookup_insert_eq.
  - intros j Hj. now apply list_lookup_insert_ne.
  - now apply list_lookup_insert_eq.
Qed.

Lemma merge_keeps_isFavorite_witness :
  exists stored : BLEDevice.t,
    ScannerScreen.onDeviceFound (processBLEDevice 200 Examples.taggedPayloadAgain)
      Examples.connectedFavoriteList !! 0%nat = Some stored
    /\ BLEDevice.isFavorite stored = true.
Proof.
  destruct (merge_keeps_isFavorite 200 Examples.taggedPayloadAgain
              Examples.connectedFavoriteList 0 (BLEDevice.with_isConnected true
                 (BLEDevice.with_isFavorite true
                    (processBLEDevice 100 Examples.taggedPayload))))
    as (stored & Hstored & Hfav & _); [reflexivity |].
  exists stored. split; [exact Hstored | exact Hfav].
Defined.

(** C3 as stated fails.  A connected favourite record of the scanner
    screen's list loses [isConnected] when its device is heard again, and the
    map screen's merge also drops [isFavorite]. *)
Lemma merge_resets_isConnected :
  let fresh := processBLEDevice 200 Examples.taggedPayloadAgain in
  exists existing : BLEDevice.t,
    Examples.connectedFavoriteList = [existing]
    /\ BLEDevice.id existing = BLEDevice.id fresh
    /\ BLEDevice.isConnected existing = true
    /\ BLEDevice.isFavorite existing = true
    /\ (exists stored, ScannerScreen.onDeviceFound fresh [existing] = [stored]
          /\ BLEDevice.isConnected stored = false)
    /\ (exists stored, MapScreen.onDeviceFound fresh [existing] = [stored]
          /\ BLEDevice.isConnected stored = false
          /\ BLEDevice.isFavorite stored = false).
Proof.
  eexists. split; [reflexivity |].
  repeat split; try reflexivity; eexists; repeat split; reflexivity.
Qed.

End Merge.

(** ** One record per identifier *)

Section Registry.

Import RealBLEService.

Local Open Scope list_scope.

Implicit Types (device existing : BLEDevice.t) (prev : list BLEDevice.t).

Lemma recordsOf_absent (deviceId : string) prev :
  deviceId ∉ map BLEDevice.id prev -> recordsOf deviceId prev = [].
Proof.
  induction prev as [| x l IH]; [reflexivity |].
  simpl. intros Hnotin. apply not_elem_of_cons in Hnotin as [Hne Hl].
  destruct (String.eqb_spec (BLEDevice.id x) deviceId); [congruence | auto].
Qed.

(** The identifiers of a merged list are those of the list and the merged
    record's own. *)
Lemma scanner_merge_ids device prev (x : string) :
  x ∈ map BLEDevice.id (ScannerScreen.onDeviceFound device prev)
  -> x = BLEDevice.id device \/ x ∈ map BLEDevice.id prev.
Proof.
  induction prev as [| e l IH].
  - simpl. intros H. apply list_elem_of_singleton in H. auto.
  - rewrite scanner_merge_cons. case_decide as Heq; simpl; intros H.
    + apply elem_of_cons in H as [-> | H]; [now left | right; now right].
    + apply elem_of_cons in H as [-> | H]; [right; now left |].
      destruct (IH H); [now left | right; now right].
Qed.

Lemma map_merge_ids device prev (x : string) :
  x ∈ map BLEDevice.id (MapScreen.onDeviceFound device prev)
  -> x = BLEDevice.id device \/ x ∈ map BLEDevice.id prev.
Proof.
  induction prev as [| e l IH].
  - simpl. intros H. apply list_elem_of_singleton in H. auto.
  - rewrite map_merge_cons. case_decide as Heq; simpl; intros H.
    + apply elem_of_cons in H as [-> | H]; [now left | right; now right].
    + apply elem_of_cons in H as [-> | H]; [right; now left |].
      destruct (IH H); [now left | right; now right].
Qed.

(** Merging keeps the identifiers of a list pairwise distinct. *)
Lemma scanner_merge_NoDup device prev :
  NoDup (map BLEDevice.id prev) ->
  NoDup (map BLEDevice.id (ScannerScreen.onDeviceFound device prev)).
Proof.
  induction prev as [| e l IH]; intros Hnd.
  - simpl. apply NoDup_singleton.
  - rewrite scanner_merge_cons. simpl in Hnd. apply NoDup_cons in Hnd as [Hnotin Hnd].
    case_decide as Heq; simpl; apply NoDup_cons.
    + rewrite <- Heq. auto.
    + split; [| auto]. intros Hin.
      apply scanner_merge_ids in Hin as [Hin | Hin]; auto.
Qed.

Lemma map_merge_NoDup device prev :
  NoDup (map BLEDevice.id prev) ->
  NoDup (map BLEDevice.id (MapScreen.onDeviceFound device prev)).
Proof.
  induction prev as [| e l IH]; intros Hnd.
  - simpl. apply NoDup_singleton.
  - rewrite map_merge_cons. simpl in Hnd. apply NoDup_cons in Hnd as [Hnotin Hnd].
    case_decide as Heq; simpl; apply NoDup_cons.
    + rewrite <- Heq. auto.
    + split; [| auto]. intros Hin.
      apply map_merge_ids in Hin as [Hin | Hin]; auto.
Qed.

(** After a merge the list holds exactly one record of the merged
    identifier. *)
Lemma scanner_merge_recordsOf device prev :
  NoDup (map BLEDevice.id prev) ->
  exists keptFavorite : bool,
    recordsOf (BLEDevice.id device) (ScannerScreen.onDeviceFound device prev)
    = [BLEDevice.with_isFavorite keptFavorite device].
Proof.
  induction prev as [| e l IH]; intros Hnd.
  - exists (BLEDevice.isFavorite device). simpl.
    rewrite String.eqb_refl. now destruct device.
  - rewrite scanner_merge_cons. simpl in Hnd. apply NoDup_cons in Hnd as [Hnotin Hnd].
    case_decide as Heq.
    + exists (BLEDevice.isFavorite e). simpl. rewrite String.eqb_refl.
      rewrite recordsOf_absent by (rewrite <- Heq; exact Hnotin). reflexivity.
    + destruct (IH Hnd) as [b Hb]. exists b. simpl.
      destruct (String.eqb_spec (BLEDevice.id e) (BLEDevice.id device));
        [contradiction | exact Hb].
Qed.

Lemma map_merge_recordsOf device prev :
  NoDup (map BLEDevice.id prev) ->
  recordsOf (BLEDevice.id device) (MapScreen.onDeviceFound device prev) = [device].
Proof.
  induction prev as [| e l IH]; intros Hnd.
  - simpl. now rewrite String.eqb_refl.
  - rewrite map_merge_cons. simpl in Hnd. apply NoDup_cons in Hnd as [Hnotin Hnd].
    case_decide as Heq.
    + simpl. rewrite String.eqb_refl.
      rewrite recordsOf_absent by (rewrite <- Heq; exact Hnotin). reflexivity.
    + simpl. destruct (String.eqb_spec (BLEDevice.id e) (BLEDevice.id device));
        [contradiction | auto].
Qed.

(** A listener that keeps identifiers distinct keeps them distinct along a
    whole session. *)
Lemma observeAll_NoDup onDeviceFound (evs : list ScanEvent) (st : Session) :
  (forall device prev, NoDup (map BLEDevice.id prev) ->
                       NoDup (map BLEDevice.id (onDeviceFound device prev))) ->
  NoDup (map BLEDevice.id (snd st)) ->
  NoDup (map BLEDevice.id (snd (observeAll onDeviceFound evs st))).
Proof.
  intros Hkeep. revert st.
  induction evs as [| ev evs IH]; intros [svc screen] Hnd; [exact Hnd |].
  simpl. apply IH.
  destruct ev as [| [device |] now]; simpl; auto.
Qed.

Lemma observeAll_snoc onDeviceFound (evs : list ScanEvent) (ev : ScanEvent)
    (st : Session) :
  observeAll onDeviceFound (evs ++ [ev]) st
  = observe onDeviceFound (observeAll onDeviceFound evs st) ev.
Proof. unfold observeAll. now rewrite fold_left_app. Qed.

End Registry.

(** ** The scan pipeline and the unavailable signal *)

Section Pipeline.

Local Open Scope R_scope.

Import RealBLEService.

Lemma rssiOrDefault_unavailable (rssi : option Z) :
  rssi = None \/ rssi = Some 0%Z -> rssiOrDefault rssi = (-100)%Z.
Proof. intros [-> | ->]; reflexivity. Qed.

Lemma calculateDistance_default : calculateDistance (-100) defaultTxPower = 100.
Proof. apply calculateDistance_far; unfold defaultTxPower; lia. Qed.

(** C5.  At the sentinel 0 the estimator answers -1, an outcome that no
    nonzero signal produces and that lies outside the range of distances;
    the pipeline does not fail on such a device and does not store that
    outcome as a distance: it stores the default signal -100 and the
    distance estimated from it. *)
Theorem unavailable_signal (referenceStrengthAt1m now : Z) (device : Device.t) :
  calculateDistance 0 referenceStrengthAt1m = -1
  /\ (forall s : Z, calculateDistance s referenceStrengthAt1m = -1 <-> s = 0%Z)
  /\ (forall s : Z, s <> 0%Z ->
        1 / 10 <= calculateDistance s referenceStrengthAt1m <= 100)
  /\ (Device.rssi device = Some 0%Z ->
      let record := processBLEDevice now device in
      BLEDevice.signalStrength record = (-100)%Z
      /\ BLEDevice.distance record = calculateDistance (-100) defaultTxPower
      /\ BLEDevice.distance record <> -1).
Proof.
  split; [reflexivity |]. split; [| split].
  - intros s. split.
    + intros Hminus. destruct (Z.eq_dec s 0%Z) as [| Hnz]; [assumption |].
      pose proof (calculateDistance_range s referenceStrengthAt1m Hnz). lra.
    + intros ->. reflexivity.
  - intros s Hnz. now apply calculateDistance_range.
  - intros Hrssi record. subst record. simpl. rewrite Hrssi. simpl.
    repeat split. rewrite calculateDistance_default. lra.
Qed.

Lemma unavailable_signal_witness :
  BLEDevice.signalStrength (processBLEDevice 7 Examples.noSignal) = (-100)%Z.
Proof.
  apply (unavailable_signal (-59) 7 Examples.noSignal). reflexivity.
Defined.

(** C10.  Every record that the pipeline produces carries a distance between
    0.1 and 100: the estimator is called on the stored signal strength, which
    is never 0, so its -1 answer cannot occur; when the radio reports no
    RSSI, or 0, the stored signal strength is -100 and the distance is the
    upper bound of 100 metres. *)
Theorem pipeline_distance_range (now : Z) (device : Device.t) :
  let record := processBLEDevice now device in
  1 / 10 <= BLEDevice.distance record <= 100
  /\ BLEDevice.signalStrength record <> 0%Z
  /\ BLEDevice.distance record
     = calculateDistance (BLEDevice.signalStrength record) defaultTxPower
  /\ BLEDevice.distance record <> -1
  /\ (Device.rssi device = None \/ Device.rssi device = Some 0%Z ->
      BLEDevice.signalStrength record = (-100)%Z
      /\ BLEDevice.distance record = 100).
Proof.
  intros record.
  pose proof (rssiOrDefault_nonzero (Device.rssi device)) as Hnz.
  pose proof (calculateDistance_range _ defaultTxPower Hnz) as Hrange.
  subst record. simpl.
  split; [exact Hrange |]. split; [exact Hnz |]. split; [reflexivity |].
  split; [lra |].
  intros Hrssi. rewrite (rssiOrDefault_unavailable _ Hrssi).
  split; [reflexivity | apply calculateDistance_default].
Qed.

Lemma pipeline_distance_range_witness :
  BLEDevice.signalStrength (processBLEDevice 7 Examples.noSignal) = (-100)%Z
  /\ BLEDevice.distance (processBLEDevice 7 Examples.noSignal) = 100.
Proof.
  apply (pipeline_distance_range 7 Examples.noSignal). right. reflexivity.
Defined.

End Pipeline.

(** ** Favourites *)

Section Favorites.

Import RealBLEService.

Local Open Scope list_scope.

Lemma flipFavorite_involutive (deviceId : string) (device : BLEDevice.t) :
  ScannerScreen.flipFavorite deviceId (ScannerScreen.flipFavorite deviceId device)
  = device.
Proof.
  unfold ScannerScreen.flipFavorite.
  destruct (String.eqb (BLEDevice.id device) deviceId) eqn:E; simpl; rewrite E.
  - destruct device; simpl. now rewrite negb_involutive.
  - reflexivity.
Qed.

Lemma map_flipFavorite_involutive (deviceId : string) (devices : list BLEDevice.t) :
  map (ScannerScreen.flipFavorite deviceId)
      (map (ScannerScreen.flipFavorite deviceId) devices) = devices.
Proof.
  induction devices as [| d l IH]; simpl; [reflexivity |].
  now rewrite flipFavorite_involutive, IH.
Qed.

Lemma loadFavorites_saved (favorites : list string) (storage : AsyncStorage) :
  loadFavorites (saveFavorites true favorites storage) = favorites.
Proof.
  unfold loadFavorites, saveFavorites. now rewrite lookup_insert_eq.
Qed.

(** C8, as amended.  Two presses in a row on the favourite control of one
    identifier give back the list of records as it was, each [isFavorite]
    included.  The stored identifier set is given back as well when, before
    the first press, it was the set of identifiers of the in-memory
    favourites, and the second write is not rejected after an accepted
    first one. *)
Theorem toggleFavorite_twice (deviceId : string) (devices : list BLEDevice.t)
    (storage : AsyncStorage) (ok1 ok2 : bool) :
  let after := ScannerScreen.pressFavorite deviceId ok2
                 (ScannerScreen.pressFavorite deviceId ok1 (devices, storage)) in
  fst after = devices
  /\ (storedSet storage = favoriteSet devices ->
      (ok1 = true -> ok2 = true) ->
      storedSet (snd after) = storedSet storage).
Proof.
  unfold ScannerScreen.pressFavorite, ScannerScreen.toggleFavorite. simpl.
  split; [apply map_flipFavorite_involutive |].
  intros Hsync Hwrites. rewrite map_flipFavorite_involutive.
  destruct ok2.
  - unfold storedSet at 1. rewrite loadFavorites_saved. symmetry. exact Hsync.
  - destruct ok1; [now specialize (Hwrites eq_refl) | reflexivity].
Qed.

Lemma toggleFavorite_twice_witness :
  storedSet (snd (ScannerScreen.pressFavorite "A" true
                    (ScannerScreen.pressFavorite "A" true
                       (Examples.oneDeviceList, Examples.emptyFavorites))))
  = storedSet Examples.emptyFavorites.
Proof.
  apply (toggleFavorite_twice "A" Examples.oneDeviceList Examples.emptyFavorites
           true true); reflexivity.
Defined.

(** C8 as stated fails.  With a store that remembers a favourite absent
    from the in-memory list, two presses leave an empty stored list; and
    with a store in step with the list, a second write that is rejected
    leaves the identifier written by the first press. *)
Lemma toggleFavorite_twice_counterexample :
  (loadFavorites Examples.staleStorage = ["B"]
   /\ loadFavorites
        (snd (ScannerScreen.pressFavorite "A" true
                (ScannerScreen.pressFavorite "A" true
                   (Examples.oneDeviceList, Examples.staleStorage)))) = [])
  /\ (loadFavorites Examples.emptyFavorites = []
      /\ loadFavorites
           (snd (ScannerScreen.pressFavorite "A" false
                   (ScannerScreen.pressFavorite "A" true
                      (Examples.oneDeviceList, Examples.emptyFavorites)))) = ["A"]).
Proof. repeat split; reflexivity. Qed.

End Favorites.

(** * Further properties of the classifier *)

Section ClassifierRules.

Import RealBLEService.

Lemma byte_eqb_eq (a b : byte) : Byte.eqb a b = true <-> a = b.
Proof.
  split; [apply Byte.byte_dec_bl |]. intros ->. apply Byte.byte_dec_lb. reflexivity.
Qed.

(** [isAirTag] on a rendered payload, byte by byte. *)
Lemma isAirTag_bytes (buf : list byte) (serviceUUIDs : list string) :
  isAirTag (Buffer.toString_hex buf) serviceUUIDs
  = match buf with
    | b0 :: b1 :: _ => Byte.eqb b0 x00 && Byte.eqb b1 x4c
    | _ => false
    end
    && (hasService serviceUUIDs findMyServiceUUID
        || match buf with
           | _ :: _ :: b2 :: _ :: _ => Byte.eqb b2 x12
           | _ => false
           end).
Proof.
  unfold isAirTag. rewrite startsWith_004c.
  pose proof (airTagPattern_bytes buf) as Hpat. cbv zeta in Hpat.
  now rewrite Hpat.
Qed.

Lemma startsWith_004c_applePrefixed (payload : list byte) :
  Js.startsWith (Buffer.toString_hex payload) "004c" = true <-> applePrefixed payload.
Proof.
  rewrite startsWith_004c. unfold applePrefixed.
  destruct payload as [| b0 [| b1 rest]].
  - split; [discriminate | intros [? [=]]].
  - split; [discriminate | intros [? [=]]].
  - rewrite andb_true_iff, !byte_eqb_eq. split.
    + intros [-> ->]. eauto.
    + intros [r [= -> -> _]]. auto.
Qed.

Lemma typeMarked_bytes (payload : list byte) :
  match payload with
  | _ :: _ :: b2 :: _ :: _ => Byte.eqb b2 x12
  | _ => false
  end = true <-> typeMarked payload.
Proof.
  unfold typeMarked.
  destruct payload as [| b0 [| b1 [| b2 [| b3 tail]]]];
    try (split; [discriminate | intros (? & ? & ? & ? & [=])]).
  rewrite byte_eqb_eq. split.
  - intros ->. eauto 6.
  - intros (? & ? & ? & ? & [= _ _ -> _ _]). reflexivity.
Qed.

Lemma isAirTag_iff (payload : list byte) (serviceUUIDs : list string) :
  isAirTag (Buffer.toString_hex payload) serviceUUIDs = true
  <-> applePrefixed payload
      /\ (hasService serviceUUIDs findMyServiceUUID = true \/ typeMarked payload).
Proof.
  rewrite isAirTag_bytes, andb_true_iff, orb_true_iff.
  rewrite <- startsWith_004c_applePrefixed, startsWith_004c, typeMarked_bytes.
  reflexivity.
Qed.

(** The checks after the Apple block never answer [airtag] or [iphone]. *)
Lemma afterApple_cases (device : Device.t) :
  let later :=
    if isAudioDevice (uuidsOf device) (lowerName device) then headphones
    else if isAndroidDevice (Device.manufacturerData device) (lowerName device)
         then android
    else unknown in
  later <> airtag /\ later <> iphone.
Proof.
  cbv zeta. destruct (isAudioDevice _ _); [split; discriminate |].
  destruct (isAndroidDevice _ _); split; discriminate.
Qed.

(** Every way through [identifyDeviceType], by the decoded payload. *)
Lemma identifyDeviceType_cases (device : Device.t) :
  (exists data,
     Device.manufacturerData device = Some data
     /\ applePrefixed (Buffer.from_base64 data)
     /\ identifyDeviceType device
        = if isAirTag (Buffer.toString_hex (Buffer.from_base64 data)) (uuidsOf device)
          then airtag
          else if isIPhone (Buffer.toString_hex (Buffer.from_base64 data))
                    (uuidsOf device) (lowerName device) then iphone
          else if isAudioDevice (uuidsOf device) (lowerName device) then headphones
          else if isAndroidDevice (Device.manufacturerData device) (lowerName device)
               then android
          else unknown)
  \/ ((forall data, Device.manufacturerData device = Some data ->
                    ~ applePrefixed (Buffer.from_base64 data))
      /\ identifyDeviceType device
         = if isAudioDevice (uuidsOf device) (lowerName device) then headphones
           else if isAndroidDevice (Device.manufacturerData device) (lowerName device)
                then android
           else unknown).
Proof.
  destruct (Device.manufacturerData device) as [data |] eqn:Hdata.
  - destruct (Js.startsWith (Buffer.toString_hex (Buffer.from_base64 data)) "004c")
      eqn:Hprefix.
    + left. exists data. split; [reflexivity |]. split.
      * now apply startsWith_004c_applePrefixed.
      * rewrite <- Hdata. exact (identifyDeviceType_apple device data Hdata Hprefix).
    + right. split.
      * intros data' [= <-] Happle.
        apply startsWith_004c_applePrefixed in Happle. congruence.
      * rewrite <- Hdata. exact (identifyDeviceType_not_apple device data Hdata Hprefix).
  - right. split; [discriminate |].
    unfold identifyDeviceType. now rewrite Hdata.
Qed.

(** X1.  A device is classified as a tracker exactly when its payload begins
    with the bytes [00 4c] and it either advertises the Find-My service or
    carries the byte [12] in third place of a payload of four bytes or more. *)
Theorem airtag_iff (device : Device.t) :
  identifyDeviceType device = airtag
  <-> exists data : string,
        Device.manufacturerData device = Some data
        /\ applePrefixed (Buffer.from_base64 data)
        /\ (hasService (uuidsOf device) findMyServiceUUID = true
            \/ typeMarked (Buffer.from_base64 data)).
Proof.
  split.
  - intros Hair.
    destruct (identifyDeviceType_cases device)
      as [(data & Hdata & Happle & Heq) | (_ & Heq)].
    + exists data. split; [exact Hdata |]. split; [exact Happle |].
      rewrite Heq in Hair.
      destruct (isAirTag _ _) eqn:E.
      * now apply isAirTag_iff in E.
      * destruct (isIPhone _ _ _); [discriminate |].
        now destruct (afterApple_cases device) as [Hne _].
    + rewrite Heq in Hair. now destruct (afterApple_cases device) as [Hne _].
  - intros (data & Hdata & Happle & Hevidence).
    assert (Hprefix := proj2 (startsWith_004c_applePrefixed _) Happle).
    rewrite (identifyDeviceType_apple device data Hdata Hprefix).
    now rewrite (proj2 (isAirTag_iff _ _) (conj Happle Hevidence)).
Qed.

(** X2.  A device is classified as an iPhone exactly when its payload begins
    with the bytes [00 4c], the tracker evidence is missing, and it
    advertises the hand-off or the AirDrop service or its lower-cased name
    contains "iphone" or "ios". *)
Theorem iphone_iff (device : Device.t) :
  identifyDeviceType device = iphone
  <-> exists data : string,
        Device.manufacturerData device = Some data
        /\ applePrefixed (Buffer.from_base64 data)
        /\ hasService (uuidsOf device) findMyServiceUUID = false
        /\ ~ typeMarked (Buffer.from_base64 data)
        /\ (hasService (uuidsOf device) handoffServiceUUID = true
            \/ hasService (uuidsOf device) airdropServiceUUID = true
            \/ Js.includes (lowerName device) "iphone" = true
            \/ Js.includes (lowerName device) "ios" = true).
Proof.
  split.
  - intros Hphone.
    destruct (identifyDeviceType_cases device)
      as [(data & Hdata & Happle & Heq) | (_ & Heq)].
    + exists data. split; [exact Hdata |]. split; [exact Happle |].
      rewrite Heq in Hphone.
      destruct (isAirTag _ _) eqn:E; [discriminate |].
      assert (Hnot : ~ (applePrefixed (Buffer.from_base64 data)
                        /\ (hasService (uuidsOf device) findMyServiceUUID = true
                            \/ typeMarked (Buffer.from_base64 data)))).
      { intros H. apply isAirTag_iff in H. congruence. }
      split; [destruct (hasService _ findMyServiceUUID); [exfalso |]; auto |].
      split; [intros Hmark; apply Hnot; auto |].
      destruct (isIPhone _ _ _) eqn:Ephone.
      * unfold isIPhone in Ephone.
        rewrite !orb_true_iff in Ephone. tauto.
      * now destruct (afterApple_cases device) as [_ Hne].
    + rewrite Heq in Hphone. now destruct (afterApple_cases device) as [_ Hne].
  - intros (data & Hdata & Happle & Hfind & Hmark & Hevidence).
    assert (Hprefix := proj2 (startsWith_004c_applePrefixed _) Happle).
    rewrite (identifyDeviceType_apple device data Hdata Hprefix).
    destruct (isAirTag _ _) eqn:E.
    + apply isAirTag_iff in E as [_ [E | E]]; [congruence | contradiction].
    + unfold isIPhone.
      destruct Hevidence as [H | [H | [H | H]]];
        rewrite H; simpl; rewrite ?orb_true_r; reflexivity.
Qed.

(** Only a payload beginning with [00 4c] is classified by an Apple rule. *)
Lemma apple_rule_payload (device : Device.t) :
  identifyDeviceType device = airtag \/ identifyDeviceType device = iphone ->
  exists data : string,
    Device.manufacturerData device = Some data
    /\ applePrefixed (Buffer.from_base64 data).
Proof.
  intros Htype.
  destruct (identifyDeviceType_cases device) as [(data & Hdata & Happle & _) | (_ & Heq)];
    [eauto |].
  rewrite Heq in Htype. destruct (afterApple_cases device) as [Ha Hi].
  destruct Htype; contradiction.
Qed.

End ClassifierRules.

Section ClassifierEdges.

Import RealBLEService.

(** X3.  A device without manufacturer data ([null] or the empty string) is
    classified by the audio rule alone: as headphones when that rule holds
    and as unknown otherwise, never as an Android phone, whatever its name. *)
Theorem no_payload_classification (device : Device.t) :
  Device.manufacturerData device = None \/ Device.manufacturerData device = Some "" ->
  identifyDeviceType device
  = (if isAudioDevice (uuidsOf device) (lowerName device) then headphones else unknown)
  /\ identifyDeviceType device <> android.
Proof.
  intros Hnone.
  assert (Heq : identifyDeviceType device
                = if isAudioDevice (uuidsOf device) (lowerName device)
                  then headphones else unknown).
  { unfold identifyDeviceType. destruct Hnone as [-> | ->]; reflexivity. }
  split; [exact Heq |]. rewrite Heq. destruct (isAudioDevice _ _); discriminate.
Qed.

Lemma no_payload_classification_witness :
  identifyDeviceType
    (Device.mk "H" (Some "Samsung Galaxy Android") None (Some (-71)) None None)
  = unknown.
Proof.
  apply (no_payload_classification
           (Device.mk "H" (Some "Samsung Galaxy Android") None (Some (-71)) None None)).
  left. reflexivity.
Defined.

Lemma lower_char_digit0 (c : ascii) :
  Ascii.eqb "0" (Js.lower_char c) = true -> c = "0"%char.
Proof. destruct c as [[] [] [] [] [] [] [] []]; (discriminate || reflexivity). Qed.

Lemma base64_00_first_byte (c2 c3 : ascii) (rest : string) :
  Buffer.unbase64 c2 <> None -> Buffer.unbase64 c3 <> None ->
  Ascii.eqb c2 "=" = false -> Ascii.eqb c3 "=" = false ->
  exists tail : list byte,
    Buffer.from_base64 (String "0" (String "0" (String c2 (String c3 rest))))
    = xd3 :: tail.
Proof.
  intros H2 H3 E2 E3. unfold Buffer.from_base64. simpl.
  rewrite E2, E3.
  destruct (Buffer.unbase64 c2) as [v2 |]; [| contradiction].
  destruct (Buffer.unbase64 c3) as [v3 |]; [| contradiction].
  simpl. eauto.
Qed.

Lemma startsWith_lower_00 (data : string) (c2 c3 : ascii) :
  Js.startsWith (Js.toLowerCase data) (String "0" (String "0" (String c2 (String c3 ""))))
  = true ->
  exists (d2 d3 : ascii) (rest : string),
    data = String "0" (String "0" (String d2 (String d3 rest)))
    /\ Js.lower_char d2 = c2 /\ Js.lower_char d3 = c3.
Proof.
  destruct data as [| d0 [| d1 [| d2 [| d3 rest]]]]; simpl;
    rewrite ?andb_false_r; try discriminate.
  rewrite !andb_true_iff. intros (H0 & H1 & H2 & H3 & _).
  apply lower_char_digit0 in H0, H1. subst d0 d1.
  apply Ascii.eqb_eq in H2, H3. eauto 6.
Qed.

(** The three manufacturer prefixes are compared with the lower-cased
    base64 text: a string that passes begins with the characters [00], so
    its decoding begins with the byte [d3]. *)
Lemma androidPrefix_first_byte (data : string) :
  Js.some (fun id => Js.startsWith (Js.toLowerCase data) id) androidManufacturerIds
  = true ->
  exists tail : list byte, Buffer.from_base64 data = xd3 :: tail.
Proof.
  unfold Js.some, androidManufacturerIds. cbn [existsb].
  rewrite !orb_true_iff. intros [H | [H | [H | H]]]; [| | | discriminate H];
    apply startsWith_lower_00 in H as (d2 & d3 & rest & -> & H2 & H3);
    apply base64_00_first_byte;
    revert H2 H3;
    destruct d2 as [[] [] [] [] [] [] [] []]; try discriminate; intros _;
    destruct d3 as [[] [] [] [] [] [] [] []]; try discriminate; intros _;
    (discriminate || reflexivity).
Qed.

(** X4.  A device classified as an Android phone although its name contains
    none of "android", "pixel" or "samsung" has a payload whose first byte is
    [d3]: the manufacturer test reads the base64 text, not the decoded
    vendor identifier, so the little-endian vendor identifiers of Google
    (0x00E0), Samsung (0x0075) and Qualcomm (0x001D) never pass it. *)
Theorem android_by_manufacturer_first_byte (device : Device.t) :
  identifyDeviceType device = android ->
  Js.includes (lowerName device) "android" = false ->
  Js.includes (lowerName device) "pixel" = false ->
  Js.includes (lowerName device) "samsung" = false ->
  exists (data : string) (tail : list byte),
    Device.manufacturerData device = Some data
    /\ Buffer.from_base64 data = xd3 :: tail
    /\ Buffer.readUInt16LE (Buffer.from_base64 data) <> Some 0x00E0%N
    /\ Buffer.readUInt16LE (Buffer.from_base64 data) <> Some 0x0075%N
    /\ Buffer.readUInt16LE (Buffer.from_base64 data) <> Some 0x001D%N.
Proof.
  intros Handroid Hn1 Hn2 Hn3.
  assert (Hrule : isAndroidDevice (Device.manufacturerData device) (lowerName device)
                  = true).
  { destruct (identifyDeviceType_cases device) as [(data & _ & _ & Heq) | (_ & Heq)];
      rewrite Heq in Handroid;
      repeat match type of Handroid with
             | (if ?b then _ else _) = _ => destruct b eqn:?; try discriminate
             end; reflexivity. }
  unfold isAndroidDevice in Hrule.
  destruct (Device.manufacturerData device) as [[| c s] |]; try discriminate.
  rewrite Hn1, Hn2, Hn3, !orb_false_r in Hrule.
  apply androidPrefix_first_byte in Hrule as [tail Htail].
  exists (String c s), tail. split; [reflexivity |]. split; [exact Htail |].
  rewrite Htail. destruct tail as [| b1 tail']; simpl;
    [repeat split; discriminate |].
  pose proof (Byte.to_N_bounded b1).
  repeat split; intros [= H']; lia.
Qed.

Lemma android_by_manufacturer_first_byte_witness :
  exists (data : string) (tail : list byte),
    Device.manufacturerData
      (Device.mk "I" (Some "Tablet") None (Some (-66)) (Some "00E0AAEC") None)
    = Some data
    /\ Buffer.from_base64 data = xd3 :: tail.
Proof.
  destruct (android_by_manufacturer_first_byte
              (Device.mk "I" (Some "Tablet") None (Some (-66)) (Some "00E0AAEC") None))
    as (data & tail & Hdata & Htail & _); try reflexivity.
  exists data, tail. split; assumption.
Defined.

Lemma manufacturerMap_apple (manufacturerId : N) :
  Js.or_lit (manufacturerMap manufacturerId) "Unknown" = "Apple"
  <-> manufacturerId = 0x004C%N.
Proof.
  unfold manufacturerMap. split.
  - repeat match goal with
           | |- context [(manufacturerId =? ?k)%N] =>
               destruct (N.eqb_spec manufacturerId k); try discriminate
           end; auto.
  - intros ->. reflexivity.
Qed.

(** X5.  [extractManufacturer] answers "Apple" exactly for a payload that
    begins with the bytes [4c 00]; without manufacturer data, and for a
    payload shorter than two bytes (where the read fails), it answers
    "Unknown". *)
Theorem extractManufacturer_apple (device : Device.t) :
  (extractManufacturer device = "Apple"
   <-> exists (data : string) (rest : list byte),
         Device.manufacturerData device = Some data
         /\ Buffer.from_base64 data = x4c :: x00 :: rest)
  /\ (forall data : string,
        Device.manufacturerData device = None
        \/ (Device.manufacturerData device = Some data
            /\ (length (Buffer.from_base64 data) < 2)%nat) ->
        extractManufacturer device = "Unknown").
Proof.
  split; [split |].
  - unfold extractManufacturer.
    destruct (Device.manufacturerData device) as [[| c s] |]; try discriminate.
    destruct (Buffer.from_base64 (String c s)) as [| b0 [| b1 rest]] eqn:Hbuf;
      try discriminate.
    simpl. intros Hname. apply manufacturerMap_apple in Hname.
    pose proof (Byte.to_N_bounded b0) as Hb0.
    pose proof (Byte.to_N_bounded b1) as Hb1.
    assert (E0 : Byte.to_N b0 = Byte.to_N x4c) by (simpl; lia).
    assert (E1 : Byte.to_N b1 = Byte.to_N x00) by (simpl; lia).
    apply byte_to_N_inj in E0, E1. subst. eauto.
  - intros (data & rest & Hdata & Hbuf). unfold extractManufacturer.
    rewrite Hdata. destruct data as [| c s]; [discriminate Hbuf |].
    rewrite Hbuf. reflexivity.
  - intros data [Hnone | [Hdata Hshort]]; unfold extractManufacturer.
    + now rewrite Hnone.
    + rewrite Hdata. destruct data as [| c s]; [reflexivity |].
      destruct (Buffer.from_base64 (String c s)) as [| b0 [| b1 rest]];
        [reflexivity | reflexivity | simpl in Hshort; lia].
Qed.

(** X6.  No record of the pipeline is both classified by an Apple rule and
    attributed to Apple: a record of type [airtag] or [iphone] always carries
    the manufacturer "Unknown", and a record whose manufacturer is "Apple"
    is never of type [airtag] or [iphone]. *)
Theorem apple_type_unknown_manufacturer (now : Z) (device : Device.t) :
  let record := processBLEDevice now device in
  (BLEDevice.type record = airtag \/ BLEDevice.type record = iphone ->
   BLEDevice.manufacturer record = "Unknown")
  /\ (BLEDevice.manufacturer record = "Apple" ->
      BLEDevice.type record <> airtag /\ BLEDevice.type record <> iphone).
Proof.
  cbv zeta. simpl.
  assert (Hunknown : identifyDeviceType device = airtag
                     \/ identifyDeviceType device = iphone ->
                     extractManufacturer device = "Unknown").
  { intros Htype.
    destruct (apple_rule_payload device Htype) as (data & Hdata & rest & Hbuf).
    unfold extractManufacturer. rewrite Hdata.
    destruct data as [| c s]; [reflexivity |]. rewrite Hbuf. reflexivity. }
  split; [exact Hunknown |].
  intros Hname. split; intros Htype.
  - rewrite Hunknown in Hname by auto. discriminate.
  - rewrite Hunknown in Hname by auto. discriminate.
Qed.

End ClassifierEdges.

(** * Further properties of the estimator and of the pipeline *)

Section EstimatorBand.

Local Open Scope R_scope.

Import RealBLEService.

Lemma Rpower10_strict (x y : R) : x < y -> Rpower 10 x < Rpower 10 y.
Proof. intros Hxy. apply Rpower_lt; lra. Qed.

Lemma Rpower10_m1 : Rpower 10 (-1) = 1 / 10.
Proof.
  replace (-1) with (- (1)) by lra.
  rewrite Rpower_Ropp, Rpower_1 by lra. lra.
Qed.

Lemma clamp_strict (x y : R) :
  x < y -> x < 100 -> 1 / 10 < y ->
  Rmax (1 / 10) (Rmin 100 x) < Rmax (1 / 10) (Rmin 100 y).
Proof.
  intros Hxy Hx Hy. unfold Rmax, Rmin.
  repeat destruct (Rle_dec _ _); lra.
Qed.

Lemma ratio_le (rssi txPower k : Z) :
  (txPower - rssi <= k)%Z -> (IZR txPower - IZR rssi) / 20 <= IZR k / 20.
Proof. intros H. apply IZR_le in H. rewrite minus_IZR in H. lra. Qed.

Lemma ratio_ge (rssi txPower k : Z) :
  (k <= txPower - rssi)%Z -> IZR k / 20 <= (IZR txPower - IZR rssi) / 20.
Proof. intros H. apply IZR_le in H. rewrite minus_IZR in H. lra. Qed.

(** X7.  Where the clamp bites.  For a nonzero signal the estimate is the
    upper bound of 100 metres exactly when the signal lies 40 dB or more
    below the reference, the lower bound of 0.1 metres exactly when it lies
    20 dB or more above it, and the unclamped power in between. *)
Theorem estimate_saturation (rssi txPower : Z) :
  rssi <> 0%Z ->
  (calculateDistance rssi txPower = 100 <-> (40 <= txPower - rssi)%Z)
  /\ (calculateDistance rssi txPower = 1 / 10 <-> (txPower - rssi <= -20)%Z)
  /\ ((-20 <= txPower - rssi <= 40)%Z ->
      calculateDistance rssi txPower
      = Rpower 10 ((IZR txPower - IZR rssi) / 20)).
Proof.
  intros Hnz. rewrite calculateDistance_nonzero by assumption.
  set (ratio := (IZR txPower - IZR rssi) / 20).
  assert (Hhigh : (40 <= txPower - rssi)%Z -> 100 <= Rpower 10 ratio).
  { intros H. rewrite <- Rpower10_2. apply Rpower10_mono.
    apply ratio_ge in H. fold ratio in H. lra. }
  assert (Hbelow : (txPower - rssi < 40)%Z -> Rpower 10 ratio < 100).
  { intros H. rewrite <- Rpower10_2. apply Rpower10_strict.
    assert (H' : (txPower - rssi <= 39)%Z) by lia.
    apply ratio_le in H'. fold ratio in H'. lra. }
  assert (Hlow : (txPower - rssi <= -20)%Z -> Rpower 10 ratio <= 1 / 10).
  { intros H. rewrite <- Rpower10_m1. apply Rpower10_mono.
    apply ratio_le in H. fold ratio in H. lra. }
  assert (Habove : (-20 < txPower - rssi)%Z -> 1 / 10 < Rpower 10 ratio).
  { intros H. rewrite <- Rpower10_m1. apply Rpower10_strict.
    assert (H' : (-19 <= txPower - rssi)%Z) by lia.
    apply ratio_ge in H'. fold ratio in H'. lra. }
  repeat split.
  - intros Heq. destruct (Z_lt_le_dec (txPower - rssi) 40) as [Hlt |]; [| assumption].
    apply Hbelow in Hlt. revert Heq. unfold Rmax, Rmin.
    repeat destruct (Rle_dec _ _); lra.
  - intros H. apply Hhigh in H. unfold Rmax, Rmin.
    repeat destruct (Rle_dec _ _); lra.
  - intros Heq. destruct (Z_lt_le_dec (-20) (txPower - rssi)) as [Hlt |]; [| assumption].
    apply Habove in Hlt. revert Heq. unfold Rmax, Rmin.
    repeat destruct (Rle_dec _ _); lra.
  - intros H. apply Hlow in H. unfold Rmax, Rmin.
    repeat destruct (Rle_dec _ _); lra.
  - intros [H1 H2].
    assert (1 / 10 <= Rpower 10 ratio).
    { rewrite <- Rpower10_m1. apply Rpower10_mono.
      apply ratio_ge in H1. fold ratio in H1. lra. }
    assert (Rpower 10 ratio <= 100).
    { rewrite <- Rpower10_2. apply Rpower10_mono.
      apply ratio_le in H2. fold ratio in H2. lra. }
    unfold Rmax, Rmin. repeat destruct (Rle_dec _ _); lra.
Qed.

Lemma estimate_saturation_witness :
  (-100 <> 0)%Z
  /\ (calculateDistance (-100) (-59) = 100 <-> (40 <= -59 - -100)%Z).
Proof.
  split; [discriminate |].
  apply (estimate_saturation (-100) (-59)). discriminate.
Defined.

(** X8.  Between the two bounds the estimate is strictly decreasing: of two
    nonzero signals, the stronger gives the strictly shorter distance as soon
    as it lies less than 40 dB below the reference and the weaker lies less
    than 20 dB above it. *)
Theorem estimate_strictly_decreasing (weaker stronger txPower : Z) :
  weaker <> 0%Z -> stronger <> 0%Z ->
  (weaker < stronger)%Z ->
  (txPower - stronger < 40)%Z -> (-20 < txPower - weaker)%Z ->
  calculateDistance stronger txPower < calculateDistance weaker txPower.
Proof.
  intros Hw Hs Hlt Hband1 Hband2.
  rewrite !calculateDistance_nonzero by assumption.
  apply clamp_strict.
  - apply Rpower10_strict. apply IZR_lt in Hlt. lra.
  - rewrite <- Rpower10_2. apply Rpower10_strict.
    assert (H' : (txPower - stronger <= 39)%Z) by lia.
    apply ratio_le in H'. lra.
  - rewrite <- Rpower10_m1. apply Rpower10_strict.
    assert (H' : (-19 <= txPower - weaker)%Z) by lia.
    apply ratio_ge in H'. lra.
Qed.

Lemma estimate_strictly_decreasing_witness :
  calculateDistance (-50) (-59) < calculateDistance (-70) (-59).
Proof.
  apply (estimate_strictly_decreasing (-70) (-50) (-59)); (discriminate || lia).
Defined.

(** X9.  The record's name is never empty: it is the local name when that
    is a non-empty string, else the name when that is a non-empty string,
    else the placeholder "Unknown Device"; an empty string counts as
    missing. *)
Theorem record_name_fallback (now : Z) (device : Device.t) :
  let record := processBLEDevice now device in
  BLEDevice.name record <> ""%string
  /\ (Js.truthy (Device.localName device) = true ->
      Some (BLEDevice.name record) = Device.localName device)
  /\ (Js.truthy (Device.localName device) = false ->
      Js.truthy (Device.name device) = true ->
      Some (BLEDevice.name record) = Device.name device)
  /\ (Js.truthy (Device.localName device) = false ->
      Js.truthy (Device.name device) = false ->
      BLEDevice.name record = "Unknown Device"%string).
Proof.
  cbv zeta. simpl. unfold Js.or.
  destruct (Device.localName device) as [[| c s] |];
    destruct (Device.name device) as [[| c' s'] |]; simpl;
    repeat split; intros; (discriminate || reflexivity).
Qed.

Lemma record_name_fallback_witness :
  Some (BLEDevice.name
          (processBLEDevice 1 (Device.mk "J" (Some "Tile") (Some "") None None None)))
  = Some "Tile"%string.
Proof.
  pose proof (record_name_fallback 1
                (Device.mk "J" (Some "Tile") (Some "") None None None)) as H.
  destruct H as (_ & _ & H & _). exact (H eq_refl eq_refl).
Defined.

End EstimatorBand.

(** * Further properties of a scan session *)

Section SessionInvariants.

Import RealBLEService.

Local Open Scope list_scope.

Implicit Types (device existing r : BLEDevice.t) (prev : list BLEDevice.t).

Lemma with_isFavorite_same device :
  BLEDevice.with_isFavorite (BLEDevice.isFavorite device) device = device.
Proof. now destruct device. Qed.

Lemma observeAll_cons onDeviceFound (ev : ScanEvent) (evs : list ScanEvent)
    (st : Session) :
  observeAll onDeviceFound (ev :: evs) st
  = observeAll onDeviceFound evs (observe onDeviceFound st ev).
Proof. reflexivity. Qed.

(** On a list without favourites the two listeners coincide. *)
Lemma scanner_merge_no_favorites device prev :
  BLEDevice.isFavorite device = false ->
  Forall (fun r => BLEDevice.isFavorite r = false) prev ->
  ScannerScreen.onDeviceFound device prev = MapScreen.onDeviceFound device prev.
Proof.
  intros Hdev Hall. induction Hall as [| e l He Hl IH]; [reflexivity |].
  rewrite scanner_merge_cons, map_merge_cons. case_decide; [| now rewrite IH].
  rewrite He, <- Hdev. now rewrite with_isFavorite_same.
Qed.

Lemma map_merge_Forall (P : BLEDevice.t -> Prop) device prev :
  P device -> Forall P prev -> Forall P (MapScreen.onDeviceFound device prev).
Proof.
  intros Hdev Hall. induction Hall as [| e l He Hl IH].
  - rewrite map_merge_nil. auto.
  - rewrite map_merge_cons. case_decide; auto.
Qed.

Lemma map_merge_elem_of device prev r :
  NoDup (map BLEDevice.id prev) ->
  r ∈ MapScreen.onDeviceFound device prev
  <-> r = device \/ (r ∈ prev /\ BLEDevice.id r <> BLEDevice.id device).
Proof.
  induction prev as [| e l IH]; intros Hnd.
  - rewrite map_merge_nil, list_elem_of_singleton.
    split; [auto | intros [-> | [H _]]; [reflexivity | inversion H]].
  - simpl in Hnd. apply NoDup_cons in Hnd as [Hnotin Hnd].
    rewrite map_merge_cons. case_decide as Heq.
    + rewrite !elem_of_cons. split.
      * intros [-> | Hin]; [now left | right].
        split; [now right |]. intros Hid. apply Hnotin.
        rewrite Heq, <- Hid. apply list_elem_of_fmap. eauto.
      * intros [-> | [[-> | Hin] Hne]]; [now left | contradiction | now right].
    + rewrite !elem_of_cons, (IH Hnd). split.
      * intros [-> | [-> | [Hin Hne]]]; auto.
      * intros [-> | [[-> | Hin] Hne]]; auto.
Qed.

Lemma map_merge_ids_eq device prev :
  map BLEDevice.id (MapScreen.onDeviceFound device prev)
  = if decide (BLEDevice.id device ∈ map BLEDevice.id prev)
    then map BLEDevice.id prev
    else map BLEDevice.id prev ++ [BLEDevice.id device].
Proof.
  induction prev as [| e l IH].
  - rewrite map_merge_nil. reflexivity.
  - rewrite map_merge_cons.
    destruct (decide (BLEDevice.id e = BLEDevice.id device)) as [Heq | Hne]; simpl.
    + rewrite decide_True by (rewrite Heq; apply list_elem_of_here).
      now rewrite Heq.
    + rewrite IH.
      destruct (decide (BLEDevice.id device ∈ map BLEDevice.id l)) as [Hin | Hnotin].
      * rewrite decide_True by now apply list_elem_of_further.
        reflexivity.
      * rewrite decide_False; [reflexivity |].
        intros Hin. apply elem_of_cons in Hin as [Hin | Hin]; [congruence | contradiction].
Qed.

(** On a list without favourites a scan callback does to the scanner
    screen's list what it does to the map screen's. *)
Lemma observe_no_favorites (s : RealBLEService.t) prev (ev : ScanEvent) :
  Forall (fun r => BLEDevice.isFavorite r = false) prev ->
  observe ScannerScreen.onDeviceFound (s, prev) ev
  = observe MapScreen.onDeviceFound (s, prev) ev.
Proof.
  intros Hall. destruct ev as [| [d |] now]; simpl; try reflexivity.
  f_equal. now apply scanner_merge_no_favorites.
Qed.

(** An empty list is in step with an empty map. *)
Lemma inStep_empty (svc : RealBLEService.t) :
  discoveredDevices svc = ∅ -> inStep (svc, []).
Proof.
  intros Hempty. unfold inStep. simpl. rewrite Hempty. split; [constructor | split].
  - intros k r. rewrite lookup_empty. split; [discriminate | intros [H _]; inversion H].
  - apply map_size_empty.
Qed.

Lemma inStep_observe (st : Session) (ev : ScanEvent) :
  inStep st -> inStep (observe MapScreen.onDeviceFound st ev).
Proof.
  destruct st as [s l]. intros (Hnd & Hmap & Hsize). simpl in *.
  destruct ev as [| [d |] now]; simpl.
  - unfold inStep, stopScanning. simpl. destruct (isScanning s); simpl; auto.
  - set (b := processBLEDevice now d).
    assert (Hidb : BLEDevice.id b = Device.id d) by reflexivity.
    unfold inStep. simpl. split; [now apply map_merge_NoDup | split].
    + intros k r. rewrite (map_merge_elem_of b l r Hnd).
      destruct (decide (Device.id d = k)) as [<- | Hne].
      * rewrite lookup_insert_eq. split.
        -- intros [= <-]. auto.
        -- intros [[-> | [_ Hne]] Hid]; [reflexivity | congruence].
      * rewrite lookup_insert_ne by assumption. rewrite Hmap. split.
        -- intros [Hin Hid]. split; [right; split; [assumption | congruence] | assumption].
        -- intros [[-> | [Hin _]] Hid]; [congruence | auto].
    + assert (Hlen : length (MapScreen.onDeviceFound b l)
                     = length (map BLEDevice.id (MapScreen.onDeviceFound b l)))
        by now rewrite length_map.
      rewrite Hlen, map_merge_ids_eq, Hidb.
      destruct (decide (Device.id d ∈ map BLEDevice.id l)) as [Hin | Hnotin].
      * rewrite length_map, <- Hsize.
        apply list_elem_of_fmap in Hin as (e & He & Hine).
        assert (Hlook : discoveredDevices s !! Device.id d = Some e)
          by (apply Hmap; auto).
        rewrite map_size_insert_Some by eauto. reflexivity.
      * rewrite length_app, length_map. simpl. rewrite <- Hsize.
        rewrite map_size_insert_None; [lia |].
        destruct (discoveredDevices s !! Device.id d) as [e |] eqn:E; [| reflexivity].
        apply Hmap in E as [Hin Hid]. exfalso. apply Hnotin.
        apply list_elem_of_fmap. eauto.
  - unfold inStep. simpl. auto.
Qed.

Lemma inStep_observeAll (evs : list ScanEvent) (st : Session) :
  inStep st -> inStep (observeAll MapScreen.onDeviceFound evs st).
Proof.
  revert st. induction evs as [| ev evs IH]; intros st Hst; [exact Hst |].
  rewrite observeAll_cons. apply IH. now apply inStep_observe.
Qed.

End SessionInvariants.

Section SessionOrder.

Import RealBLEService.

Local Open Scope list_scope.

Lemma heardIds_snoc (evs : list ScanEvent) (ev : ScanEvent) :
  heardIds (evs ++ [ev])
  = heardIds evs ++ match ev with
                    | ScanFound (Some device) _ => [Device.id device]
                    | _ => []
                    end.
Proof.
  unfold heardIds. rewrite omap_app. f_equal.
  destruct ev as [| [d |] now]; reflexivity.
Qed.

(** Keeping the first occurrence of every identifier, in order. *)
Lemma firstOccurrences_snoc (ids : list string) (x : string) :
  reverse (remove_dups (reverse (ids ++ [x])))
  = if decide (x ∈ reverse (remove_dups (reverse ids)))
    then reverse (remove_dups (reverse ids))
    else reverse (remove_dups (reverse ids)) ++ [x].
Proof.
  rewrite reverse_app. simpl.
  destruct (decide_rel elem_of x (reverse ids)) as [Hin | Hnotin].
  - rewrite decide_True; [reflexivity |].
    now rewrite elem_of_reverse, elem_of_remove_dups.
  - rewrite decide_False by now rewrite elem_of_reverse, elem_of_remove_dups.
    now rewrite reverse_cons.
Qed.

(** A list of pairwise distinct identifiers is the list of its own first
    occurrences. *)
Lemma firstOccurrences_NoDup (ids : list string) :
  NoDup ids -> reverse (remove_dups (reverse ids)) = ids.
Proof.
  induction ids as [| x ids IH] using rev_ind; intros Hnd; [reflexivity |].
  apply NoDup_app in Hnd as (Hids & Hx & _).
  rewrite firstOccurrences_snoc, (IH Hids).
  rewrite decide_False; [reflexivity |].
  intros Hin. apply (Hx x Hin). apply list_elem_of_here.
Qed.

(** X12.  The map screen, which shows its list as it stands, keeps the
    devices in the order in which they were first met.  Its list is not
    emptied when a scan starts; from any list with pairwise distinct
    identifiers, the records that were there keep their places, a repeated
    advertisement is stored where the device already stands, and a device
    that is new to the list goes to the end: the identifiers of the list are
    the first occurrences in the identifiers already listed followed by the
    identifiers heard. *)
Theorem session_first_heard_order (evs : list ScanEvent) (st : Session) :
  NoDup (map BLEDevice.id (snd st)) ->
  map BLEDevice.id (snd (observeAll MapScreen.onDeviceFound evs st))
  = reverse (remove_dups (reverse (map BLEDevice.id (snd st) ++ heardIds evs))).
Proof.
  intros Hnd.
  induction evs as [| ev evs IH] using rev_ind.
  - simpl. rewrite app_nil_r. symmetry. now apply firstOccurrences_NoDup.
  - rewrite observeAll_snoc, heardIds_snoc.
    destruct (observeAll MapScreen.onDeviceFound evs st) as [s l].
    simpl in IH.
    destruct ev as [| [d |] now]; simpl; rewrite ?app_nil_r; try exact IH.
    rewrite map_merge_ids_eq, app_assoc, firstOccurrences_snoc, IH. reflexivity.
Qed.

(** A list kept from an earlier scan, showing "A": "C" is heard, then "A"
    again.  "A" keeps its place in front of "C". *)
Lemma session_first_heard_order_witness :
  NoDup (map BLEDevice.id (snd (RealBLEService.initial, Examples.oneDeviceList)))
  /\ map BLEDevice.id
       (snd (observeAll MapScreen.onDeviceFound
               [ScanFound (Some Examples.littleEndianApple) 300;
                ScanFound (Some Examples.taggedPayloadAgain) 400]
               (RealBLEService.initial, Examples.oneDeviceList)))
     = ["A"; "C"].
Proof.
  assert (Hnd : NoDup (map BLEDevice.id
                         (snd (RealBLEService.initial, Examples.oneDeviceList))))
    by apply NoDup_singleton.
  split; [exact Hnd |].
  exact (session_first_heard_order
           [ScanFound (Some Examples.littleEndianApple) 300;
            ScanFound (Some Examples.taggedPayloadAgain) 400]
           (RealBLEService.initial, Examples.oneDeviceList) Hnd).
Defined.

End SessionOrder.

Section SessionErrors.

Import RealBLEService.

Local Open Scope list_scope.

Lemma observeAll_stopped onDeviceFound (evs : list ScanEvent) (st : Session) :
  isScanning (fst st) = false ->
  isScanning (fst (observeAll onDeviceFound evs st)) = false.
Proof.
  revert st. induction evs as [| ev evs IH]; intros [s l] Hoff; [exact Hoff |].
  rewrite observeAll_cons. apply IH.
  destruct ev as [| [d |] now]; simpl in *; try exact Hoff.
  unfold stopScanning. now rewrite Hoff.
Qed.

(** Whether the service counts as scanning has no bearing on what a
    sequence of events stores. *)
Lemma observeAll_scanning_irrelevant onDeviceFound (evs : list ScanEvent)
    (s1 s2 : RealBLEService.t) (l : list BLEDevice.t) :
  discoveredDevices s1 = discoveredDevices s2 ->
  snd (observeAll onDeviceFound evs (s1, l))
  = snd (observeAll onDeviceFound evs (s2, l))
  /\ discoveredDevices (fst (observeAll onDeviceFound evs (s1, l)))
     = discoveredDevices (fst (observeAll onDeviceFound evs (s2, l))).
Proof.
  revert s1 s2 l.
  induction evs as [| ev evs IH]; intros s1 s2 l Hd; [split; auto |].
  rewrite !observeAll_cons.
  destruct ev as [| [d |] now]; simpl; apply IH; simpl.
  - unfold stopScanning. destruct (isScanning s1), (isScanning s2); exact Hd.
  - now rewrite Hd.
  - exact Hd.
Qed.

Lemma stopScanning_devices (svc : RealBLEService.t) :
  discoveredDevices (stopScanning svc) = discoveredDevices svc.
Proof. unfold stopScanning. now destruct (isScanning svc). Qed.

(** X13.  A scan error and a callback without device never add, remove or
    change a record: the map and the list at the end of a session are those
    of its advertisements alone.  After a scan error the service no longer
    counts as scanning, whatever follows. *)
Theorem session_ignores_errors onDeviceFound (evs : list ScanEvent) (st : Session) :
  let final := observeAll onDeviceFound evs st in
  let plain := observeAll onDeviceFound (List.filter isAdvertisement evs) st in
  snd final = snd plain
  /\ discoveredDevices (fst final) = discoveredDevices (fst plain)
  /\ (ScanFailed ∈ evs -> isScanning (fst final) = false).
Proof.
  cbv zeta. revert st.
  induction evs as [| ev evs IH]; intros [s l].
  - repeat split. intros H. inversion H.
  - rewrite observeAll_cons.
    destruct ev as [| [d |] now]; simpl List.filter.
    + simpl observe.
      destruct (IH (s, l)) as (H1 & H2 & _).
      destruct (observeAll_scanning_irrelevant onDeviceFound evs (stopScanning s) s l
                  (stopScanning_devices s)) as [E1 E2].
      split; [congruence | split; [congruence |]].
      intros _. apply observeAll_stopped. simpl. unfold stopScanning.
      destruct (isScanning s) eqn:E; [reflexivity | exact E].
    + rewrite observeAll_cons.
      destruct (IH (observe onDeviceFound (s, l) (ScanFound (Some d) now)))
        as (H1 & H2 & H3).
      split; [exact H1 | split; [exact H2 |]].
      intros Hin. apply H3.
      apply elem_of_cons in Hin as [Hin | Hin]; [discriminate | exact Hin].
    + simpl observe. destruct (IH (s, l)) as (H1 & H2 & H3).
      split; [exact H1 | split; [exact H2 |]].
      intros Hin. apply H3.
      apply elem_of_cons in Hin as [Hin | Hin]; [discriminate | exact Hin].
Qed.

End SessionErrors.

(** * The displayed order *)

Section DisplayOrder.

Import RealBLEService.

Local Open Scope list_scope.

(** Ascending distance. *)
Let closer (a b : BLEDevice.t) : Prop :=
  (BLEDevice.distance a <= BLEDevice.distance b)%R.

Lemma insertByDistance_Permutation (device : BLEDevice.t) (l : list BLEDevice.t) :
  DeviceList.insertByDistance device l ≡ₚ device :: l.
Proof.
  induction l as [| x l IH]; simpl; [reflexivity |].
  destruct (Rle_dec _ _); [reflexivity |].
  rewrite IH. apply perm_swap.
Qed.

Lemma sortByDistance_Permutation (l : list BLEDevice.t) :
  DeviceList.sortByDistance l ≡ₚ l.
Proof.
  induction l as [| x l IH]; simpl; [reflexivity |].
  rewrite insertByDistance_Permutation. now rewrite IH.
Qed.

Lemma insertByDistance_sorted (device : BLEDevice.t) (l : list BLEDevice.t) :
  StronglySorted closer l ->
  StronglySorted closer (DeviceList.insertByDistance device l).
Proof.
  induction 1 as [| x l Hsorted IH Hall]; simpl.
  - repeat constructor.
  - destruct (Rle_dec _ _) as [Hle | Hgt].
    + constructor; [now constructor |].
      constructor; [exact Hle |].
      eapply Forall_impl; [exact Hall |]. intros y Hxy. unfold closer in *. lra.
    + constructor; [exact IH |].
      rewrite insertByDistance_Permutation. constructor; [| exact Hall].
      unfold closer. lra.
Qed.

Lemma sortByDistance_sorted (l : list BLEDevice.t) :
  StronglySorted closer (DeviceList.sortByDistance l).
Proof.
  induction l as [| x l IH]; simpl; [constructor | now apply insertByDistance_sorted].
Qed.

Lemma sortByDistance_of_sorted (l : list BLEDevice.t) :
  StronglySorted closer l -> DeviceList.sortByDistance l = l.
Proof.
  induction 1 as [| x l Hsorted IH Hall]; simpl; [reflexivity |].
  rewrite IH. destruct l as [| y l']; simpl; [reflexivity |].
  apply Forall_cons in Hall as [Hxy _].
  destruct (Rle_dec _ _) as [| Hgt]; [reflexivity | contradiction].
Qed.

(** X14.  Sorting for display keeps exactly the records of the list, puts
    them in order of ascending distance, and leaves a list that is already in
    that order as it is; so a second render does not move any card. *)
Theorem render_sorts (devices : list BLEDevice.t) :
  ScannerScreen.render devices ≡ₚ devices
  /\ StronglySorted
       (fun a b => (BLEDevice.distance a <= BLEDevice.distance b)%R)
       (ScannerScreen.render devices)
  /\ ScannerScreen.render (ScannerScreen.render devices) = ScannerScreen.render devices.
Proof.
  unfold ScannerScreen.render. split; [apply sortByDistance_Permutation |].
  split; [apply sortByDistance_sorted |].
  apply sortByDistance_of_sorted, sortByDistance_sorted.
Qed.

Lemma recordsOf_Permutation (deviceId : string) (l k : list BLEDevice.t) :
  l ≡ₚ k -> recordsOf deviceId l ≡ₚ recordsOf deviceId k.
Proof.
  induction 1 as [| x l k Hperm IH | x y l | l k m H1 IH1 H2 IH2]; simpl.
  - reflexivity.
  - destruct (String.eqb _ _); [now constructor | exact IH].
  - destruct (String.eqb (BLEDevice.id x) _), (String.eqb (BLEDevice.id y) _);
      (reflexivity || apply perm_swap).
  - now rewrite IH1.
Qed.

Lemma scannerRun_snoc (evs : list ScreenEvent) (ev : ScreenEvent) (st : Session) :
  scannerRun (evs ++ [ev]) st = scannerStep (scannerRun evs st) ev.
Proof. unfold scannerRun. now rewrite fold_left_app. Qed.

Lemma scannerRun_NoDup (evs : list ScreenEvent) (st : Session) :
  NoDup (map BLEDevice.id (snd st)) ->
  NoDup (map BLEDevice.id (snd (scannerRun evs st))).
Proof.
  revert st. induction evs as [| ev evs IH]; intros [s l] Hnd; [exact Hnd |].
  simpl. apply IH. destruct ev as [[| [d |] now] |]; simpl; try exact Hnd.
  - now apply scanner_merge_NoDup.
  - unfold ScannerScreen.render. now rewrite sortByDistance_Permutation.
Qed.

End DisplayOrder.

(** * Starting a scan, and the sessions of the screens *)

Section ScreenSessions.

Import RealBLEService.

Local Open Scope list_scope.

(** The service arms a scan exactly when it is not scanning, the
    permissions are granted and the radio is on; it then counts as scanning
    with an empty map.  In every other case it stays as it was. *)
Lemma startScanning_outcome (hasPermissions poweredOn : bool) (svc : RealBLEService.t) :
  (fst (RealBLEService.startScanning hasPermissions poweredOn svc) = ScanArmed
   <-> isScanning svc = false /\ hasPermissions = true /\ poweredOn = true)
  /\ (fst (RealBLEService.startScanning hasPermissions poweredOn svc) = ScanArmed ->
      snd (RealBLEService.startScanning hasPermissions poweredOn svc) = mk true ∅)
  /\ (fst (RealBLEService.startScanning hasPermissions poweredOn svc) <> ScanArmed ->
      snd (RealBLEService.startScanning hasPermissions poweredOn svc) = svc).
Proof.
  unfold RealBLEService.startScanning.
  destruct (isScanning svc), hasPermissions, poweredOn; simpl;
    (split; [split; [try discriminate; auto | intros (? & ? & ?); congruence] |]);
    (split; [try discriminate; auto | try congruence; auto]).
Qed.

(** An armed start of the scanner screen leaves an empty map and an empty
    list. *)
Lemma scanner_start_armed (isBluetoothEnabled hasPermissions poweredOn : bool)
    (st : Session) :
  fst (ScannerScreen.startScanning isBluetoothEnabled hasPermissions poweredOn st)
  = Some ScanArmed ->
  snd (ScannerScreen.startScanning isBluetoothEnabled hasPermissions poweredOn st)
  = (mk true ∅, []).
Proof.
  destruct st as [svc l]. unfold ScannerScreen.startScanning, RealBLEService.startScanning.
  destruct isBluetoothEnabled, (isScanning svc), hasPermissions, poweredOn; simpl;
    intros H; (discriminate H || reflexivity).
Qed.

(** An armed start of the map screen leaves an empty map and the list as
    it was. *)
Lemma map_start_armed (hasLocation hasPermissions poweredOn : bool) (st : Session) :
  fst (MapScreen.checkPermissionsAndStartScanning hasLocation hasPermissions poweredOn st)
  = Some ScanArmed ->
  snd (MapScreen.checkPermissionsAndStartScanning hasLocation hasPermissions poweredOn st)
  = (mk true ∅, snd st).
Proof.
  destruct st as [svc l].
  unfold MapScreen.checkPermissionsAndStartScanning, RealBLEService.startScanning.
  destruct hasLocation, (isScanning svc), hasPermissions, poweredOn; simpl;
    intros H; (discriminate H || reflexivity).
Qed.

(** However a start ends, on either screen, identifiers that were pairwise
    distinct in the screen's list still are. *)
Lemma start_keeps_distinct (isBluetoothEnabled hasLocation hasPermissions poweredOn : bool)
    (st : Session) :
  NoDup (map BLEDevice.id (snd st)) ->
  NoDup (map BLEDevice.id
           (snd (snd (ScannerScreen.startScanning
                        isBluetoothEnabled hasPermissions poweredOn st))))
  /\ NoDup (map BLEDevice.id
              (snd (snd (MapScreen.checkPermissionsAndStartScanning
                           hasLocation hasPermissions poweredOn st)))).
Proof.
  destruct st as [svc l]. intros Hnd.
  unfold ScannerScreen.startScanning, MapScreen.checkPermissionsAndStartScanning,
    RealBLEService.startScanning.
  destruct isBluetoothEnabled, hasLocation, (isScanning svc), hasPermissions, poweredOn;
    simpl; split; (exact Hnd || constructor).
Qed.

Lemma scannerRun_cons (ev : ScreenEvent) (evs : list ScreenEvent) (st : Session) :
  scannerRun (ev :: evs) st = scannerRun evs (scannerStep st ev).
Proof. reflexivity. Qed.

(** Callbacks and renders leave unmarked records unmarked. *)
Lemma scannerRun_unflagged (evs : list ScreenEvent) (st : Session) :
  Forall (fun r => BLEDevice.isFavorite r = false /\ BLEDevice.isConnected r = false)
         (snd st) ->
  Forall (fun r => BLEDevice.isFavorite r = false /\ BLEDevice.isConnected r = false)
         (snd (scannerRun evs st)).
Proof.
  revert st. induction evs as [| ev evs IH]; intros [s l] Hall; [exact Hall |].
  rewrite scannerRun_cons. apply IH. simpl in Hall.
  destruct ev as [ev |]; cbn [scannerStep].
  - rewrite observe_no_favorites
      by (eapply Forall_impl; [exact Hall |]; now intros r [? _]).
    destruct ev as [| [d |] now]; simpl; try exact Hall.
    apply map_merge_Forall; [split; reflexivity | exact Hall].
  - simpl. unfold ScannerScreen.render. now rewrite sortByDistance_Permutation.
Qed.

(** X10.  Scanning never marks a record, and starting a scan forgets the
    marks.  When the scanner screen has armed a scan, whatever its list held
    before (favourites, connected devices) and whatever the store holds,
    every record of its list has [isFavorite] and [isConnected] false after
    any sequence of scan callbacks and renders that follows. *)
Theorem scan_session_no_flags (isBluetoothEnabled hasPermissions poweredOn : bool)
    (st : Session) (evs : list ScreenEvent) :
  fst (ScannerScreen.startScanning isBluetoothEnabled hasPermissions poweredOn st)
  = Some ScanArmed ->
  Forall (fun r => BLEDevice.isFavorite r = false /\ BLEDevice.isConnected r = false)
         (snd (scannerRun evs
                 (snd (ScannerScreen.startScanning
                         isBluetoothEnabled hasPermissions poweredOn st)))).
Proof.
  intros Harmed. rewrite (scanner_start_armed _ _ _ _ Harmed).
  apply scannerRun_unflagged. constructor.
Qed.

Lemma scan_session_no_flags_witness :
  fst (ScannerScreen.startScanning true true true
         (RealBLEService.initial, Examples.connectedFavoriteList))
  = Some ScanArmed
  /\ Forall (fun r => BLEDevice.isFavorite r = false /\ BLEDevice.isConnected r = false)
         (snd (scannerRun
                 [Heard (ScanFound (Some Examples.taggedPayload) 100); Rendered]
                 (snd (ScannerScreen.startScanning true true true
                         (RealBLEService.initial, Examples.connectedFavoriteList))))).
Proof.
  split; [reflexivity |].
  apply (scan_session_no_flags true true true
           (RealBLEService.initial, Examples.connectedFavoriteList)
           [Heard (ScanFound (Some Examples.taggedPayload) 100); Rendered]).
  reflexivity.
Defined.

(** A list in step with the map stays in step when its records change
    places. *)
Lemma inStep_Permutation (s : RealBLEService.t) (l k : list BLEDevice.t) :
  k ≡ₚ l -> inStep (s, l) -> inStep (s, k).
Proof.
  intros Hperm (Hnd & Hmap & Hsize). unfold inStep in *. simpl in *.
  split; [now rewrite Hperm | split].
  - intros key r. rewrite Hmap. now rewrite Hperm.
  - now rewrite Hperm.
Qed.

(** Along the callbacks and renders of the scanner screen, a list of
    unmarked records in step with the map stays so. *)
Lemma scannerRun_inStep (evs : list ScreenEvent) (st : Session) :
  Forall (fun r => BLEDevice.isFavorite r = false /\ BLEDevice.isConnected r = false)
         (snd st) ->
  inStep st -> inStep (scannerRun evs st).
Proof.
  revert st. induction evs as [| ev evs IH]; intros [s l] Hall Hst; [exact Hst |].
  rewrite scannerRun_cons. apply IH.
  - apply (scannerRun_unflagged [ev] (s, l) Hall).
  - simpl in Hall. destruct ev as [ev |]; cbn [scannerStep].
    + rewrite observe_no_favorites
        by (eapply Forall_impl; [exact Hall |]; now intros r [? _]).
      now apply inStep_observe.
    + simpl. apply (inStep_Permutation s l); [| exact Hst].
      unfold ScannerScreen.render. apply sortByDistance_Permutation.
Qed.

(** X11.  The service's map and the list of the screen that armed the scan
    stay in step as long as the list was empty when the scan was armed: a
    record is in the list exactly when it is the map's value at its
    identifier, identifiers in the list are pairwise distinct, and the number
    of devices shown is the size of the map.  The scanner screen empties its
    list at every start, so this holds along its callbacks and renders after
    every armed start; the map screen keeps its list, so it holds along its
    callbacks when the list was still empty. *)
Theorem session_map_list_in_step
    (isBluetoothEnabled hasLocation hasPermissions poweredOn : bool) (st : Session)
    (evs : list ScreenEvent) (heard : list ScanEvent) :
  (fst (ScannerScreen.startScanning isBluetoothEnabled hasPermissions poweredOn st)
   = Some ScanArmed ->
   let final :=
     scannerRun evs
       (snd (ScannerScreen.startScanning isBluetoothEnabled hasPermissions poweredOn st)) in
   NoDup (map BLEDevice.id (snd final))
   /\ (forall r, r ∈ snd final
                 <-> discoveredDevices (fst final) !! BLEDevice.id r = Some r)
   /\ length (snd final) = size (discoveredDevices (fst final)))
  /\ (fst (MapScreen.checkPermissionsAndStartScanning hasLocation hasPermissions poweredOn st)
      = Some ScanArmed ->
      snd st = [] ->
      let final :=
        observeAll MapScreen.onDeviceFound heard
          (snd (MapScreen.checkPermissionsAndStartScanning
                  hasLocation hasPermissions poweredOn st)) in
      NoDup (map BLEDevice.id (snd final))
      /\ (forall r, r ∈ snd final
                    <-> discoveredDevices (fst final) !! BLEDevice.id r = Some r)
      /\ length (snd final) = size (discoveredDevices (fst final))).
Proof.
  assert (Hspell : forall final : Session, inStep final ->
            NoDup (map BLEDevice.id (snd final))
            /\ (forall r, r ∈ snd final
                          <-> discoveredDevices (fst final) !! BLEDevice.id r = Some r)
            /\ length (snd final) = size (discoveredDevices (fst final))).
  { intros final (Hnd & Hmap & Hsize).
    split; [exact Hnd | split; [| now symmetry]].
    intros r. rewrite Hmap. tauto. }
  split.
  - intros Harmed. cbv zeta. apply Hspell.
    rewrite (scanner_start_armed _ _ _ _ Harmed).
    apply scannerRun_inStep; [constructor | now apply inStep_empty].
  - intros Harmed Hnil. cbv zeta. apply Hspell.
    rewrite (map_start_armed _ _ _ _ Harmed), Hnil.
    apply inStep_observeAll. now apply inStep_empty.
Qed.

(** A second scan of the scanner screen, started while its list still
    shows a device of the first, and the first scan of the map screen. *)
Lemma session_map_list_in_step_witness :
  fst (ScannerScreen.startScanning true true true
         (RealBLEService.initial, Examples.oneDeviceList)) = Some ScanArmed
  /\ fst (MapScreen.checkPermissionsAndStartScanning true true true
            (RealBLEService.initial, [])) = Some ScanArmed
  /\ length
       (snd (scannerRun
               [Heard (ScanFound (Some Examples.taggedPayload) 100); Rendered;
                Heard (ScanFound (Some Examples.taggedPayloadAgain) 200)]
               (snd (ScannerScreen.startScanning true true true
                       (RealBLEService.initial, Examples.oneDeviceList)))))
     = size
         (discoveredDevices
            (fst (scannerRun
                    [Heard (ScanFound (Some Examples.taggedPayload) 100); Rendered;
                     Heard (ScanFound (Some Examples.taggedPayloadAgain) 200)]
                    (snd (ScannerScreen.startScanning true true true
                            (RealBLEService.initial, Examples.oneDeviceList))))))
  /\ length
       (snd (observeAll MapScreen.onDeviceFound
               [ScanFound (Some Examples.taggedPayload) 100]
               (snd (MapScreen.checkPermissionsAndStartScanning true true true
                       (RealBLEService.initial, [])))))
     = size
         (discoveredDevices
            (fst (observeAll MapScreen.onDeviceFound
                    [ScanFound (Some Examples.taggedPayload) 100]
                    (snd (MapScreen.checkPermissionsAndStartScanning true true true
                            (RealBLEService.initial, [])))))).
Proof.
  split; [reflexivity | split; [reflexivity | split]].
  - apply (proj1 (session_map_list_in_step true true true true
                    (RealBLEService.initial, Examples.oneDeviceList)
                    [Heard (ScanFound (Some Examples.taggedPayload) 100); Rendered;
                     Heard (ScanFound (Some Examples.taggedPayloadAgain) 200)] [])).
    reflexivity.
  - apply (proj2 (session_map_list_in_step true true true true
                    (RealBLEService.initial, []) []
                    [ScanFound (Some Examples.taggedPayload) 100]));
      reflexivity.
Defined.

(** C7.  One record per identifier, carrying the later advertisement.
    Take the service in any state and a screen's list with pairwise distinct
    identifiers: the list the scanner screen emptied when it started the
    scan, or the list the map screen has kept from earlier scans (both
    starts, both listeners and the renders keep identifiers distinct).
    Whatever was delivered to the screen's listener before and in between,
    and whenever the scanner screen rendered and so sorted its list, once
    two advertisements of one identifier have been delivered the service's
    map holds the record of the later one and the screen's list holds
    exactly one record of that identifier, also after the next render.  That
    record is the later advertisement's, up to the favourite mark on the
    scanner screen: its [lastSeen] is the later clock reading; an advertised
    signal strength other than 0 is its signal strength, and its distance is
    the estimate from that strength; with no strength advertised, or 0, its
    signal strength is -100 and its distance 100; and when the later
    advertisement is at least as strong as the earlier one, its distance is
    not longer than the one recorded for the earlier. *)
Theorem observe_twice_one_record (st : Session)
    (before between : list ScreenEvent) (heardBefore heardBetween : list ScanEvent)
    (first second : Device.t) (t1 t2 : Z) :
  Device.id first = Device.id second ->
  NoDup (map BLEDevice.id (snd st)) ->
  let later := processBLEDevice t2 second in
  let carriesLater (r : BLEDevice.t) : Prop :=
    BLEDevice.with_isFavorite false r = later
    /\ BLEDevice.lastSeen r = t2
    /\ BLEDevice.signalStrength r = rssiOrDefault (Device.rssi second)
    /\ BLEDevice.distance r
       = calculateDistance (rssiOrDefault (Device.rssi second)) defaultTxPower
    /\ (forall s : Z, Device.rssi second = Some s -> s <> 0 ->
          BLEDevice.signalStrength r = s
          /\ BLEDevice.distance r = calculateDistance s defaultTxPower)
    /\ (Device.rssi second = None \/ Device.rssi second = Some 0 ->
        BLEDevice.signalStrength r = -100 /\ BLEDevice.distance r = 100%R)
    /\ (forall s1 s2 : Z,
          Device.rssi first = Some s1 -> Device.rssi second = Some s2 ->
          s1 <> 0 -> s2 <> 0 -> s1 <= s2 ->
          (BLEDevice.distance r
           <= BLEDevice.distance (processBLEDevice t1 first))%R) in
  let scanner :=
    scannerRun (before ++ [Heard (ScanFound (Some first) t1)] ++ between
                       ++ [Heard (ScanFound (Some second) t2)]) st in
  let heard := heardBefore ++ [ScanFound (Some first) t1] ++ heardBetween
                           ++ [ScanFound (Some second) t2] in
  (discoveredDevices (fst scanner) !! Device.id first = Some later
   /\ forall onDeviceFound,
        discoveredDevices (fst (observeAll onDeviceFound heard st)) !! Device.id first
        = Some later)
  /\ (exists r : BLEDevice.t,
        recordsOf (Device.id first) (snd scanner) = [r]
        /\ recordsOf (Device.id first) (snd (scannerStep scanner Rendered)) = [r]
        /\ carriesLater r)
  /\ recordsOf (Device.id first) (snd (observeAll MapScreen.onDeviceFound heard st))
     = [later]
  /\ carriesLater later.
Proof.
  intros Hid Hnd later carriesLater scanner heard.
  assert (Hcarries : forall b : bool,
            carriesLater (BLEDevice.with_isFavorite b later)).
  { intros b. unfold carriesLater. simpl.
    split; [reflexivity | split; [reflexivity | split; [reflexivity |]]].
    split; [reflexivity |]. split; [| split].
    - intros s Hs Hne. rewrite Hs. simpl.
      destruct (Z.eqb_spec s 0); [contradiction | split; reflexivity].
    - intros Hmissing.
      assert (Hdefault : rssiOrDefault (Device.rssi second) = -100)
        by (destruct Hmissing as [-> | ->]; reflexivity).
      rewrite Hdefault. split; [reflexivity | apply calculateDistance_default].
    - intros s1 s2 Hs1 Hs2 Hne1 Hne2 Hle. rewrite Hs1, Hs2. simpl.
      destruct (Z.eqb_spec s1 0); [contradiction |].
      destruct (Z.eqb_spec s2 0); [contradiction |].
      rewrite !calculateDistance_nonzero by assumption.
      apply clamp_mono, Rpower10_mono. apply IZR_le in Hle. lra. }
  subst scanner heard. rewrite !app_assoc, Hid.
  split; [split |]; [| | split; [| split]].
  - rewrite scannerRun_snoc.
    destruct (scannerRun _ st) as [svc' screen]. simpl.
    apply lookup_insert_eq.
  - intros f. rewrite observeAll_snoc.
    destruct (observeAll f _ st) as [svc' screen]. simpl.
    apply lookup_insert_eq.
  - rewrite scannerRun_snoc.
    set (evs := (before ++ [Heard (ScanFound (Some first) t1)]) ++ between).
    pose proof (scannerRun_NoDup evs st Hnd) as Hnd'.
    destruct (scannerRun evs st) as [svc' screen]. simpl in Hnd'. cbn [scannerStep fst snd].
    simpl.
    destruct (scanner_merge_recordsOf later screen Hnd') as [b Hb].
    change (BLEDevice.id later) with (Device.id second) in Hb.
    exists (BLEDevice.with_isFavorite b later).
    split; [exact Hb | split; [| apply Hcarries]].
    apply Permutation_singleton_r. rewrite <- Hb.
    apply recordsOf_Permutation. unfold ScannerScreen.render.
    apply sortByDistance_Permutation.
  - rewrite observeAll_snoc.
    set (evs := (heardBefore ++ [ScanFound (Some first) t1]) ++ heardBetween).
    pose proof (observeAll_NoDup MapScreen.onDeviceFound evs st map_merge_NoDup Hnd)
      as Hnd'.
    destruct (observeAll MapScreen.onDeviceFound evs st) as [svc' screen].
    simpl in *. apply (map_merge_recordsOf later screen Hnd').
  - rewrite <- (with_isFavorite_same later). apply Hcarries.
Qed.

(** Scenario 5 of the specification: a device heard at -70 and again, after
    a render, at -50 is listed once, with signal strength -50 and a distance
    strictly below the one estimated at -70. *)
Lemma observe_twice_one_record_witness :
  Device.id Examples.taggedPayload = Device.id Examples.taggedPayloadAgain
  /\ NoDup (map BLEDevice.id (snd Examples.firstScan))
  /\ exists r : BLEDevice.t,
       recordsOf "A"
         (snd (scannerRun
                 ([] ++ [Heard (ScanFound (Some Examples.taggedPayload) 100)]
                     ++ [Rendered]
                     ++ [Heard (ScanFound (Some Examples.taggedPayloadAgain) 200)])
                 Examples.firstScan))
       = [r]
       /\ BLEDevice.lastSeen r = 200
       /\ BLEDevice.signalStrength r = -50
       /\ (BLEDevice.distance r
           < BLEDevice.distance (processBLEDevice 100 Examples.taggedPayload))%R.
Proof.
  assert (Hnd : NoDup (map BLEDevice.id (snd Examples.firstScan))) by constructor.
  split; [reflexivity | split; [exact Hnd |]].
  destruct (observe_twice_one_record Examples.firstScan [] [Rendered] [] []
              Examples.taggedPayload Examples.taggedPayloadAgain 100 200
              eq_refl Hnd) as (_ & (r & Hone & _ & Hcarries) & _).
  destruct Hcarries as (_ & Hseen & _ & _ & Hsignal & _ & _).
  destruct (Hsignal (-50) eq_refl) as [Hs Hd]; [discriminate |].
  exists r. split; [exact Hone | split; [exact Hseen | split; [exact Hs |]]].
  rewrite Hd. apply stronger_signal_shorter_distance.
Defined.

End ScreenSessions.

(** * Further properties of the favourites *)

Section FavoritesStore.

Import RealBLEService.

Local Open Scope list_scope.


Lemma flipFavorite_id (deviceId : string) (device : BLEDevice.t) :
  BLEDevice.id (ScannerScreen.flipFavorite deviceId device) = BLEDevice.id device.
Proof.
  unfold ScannerScreen.flipFavorite. now destruct (String.eqb _ _).
Qed.

Lemma flipFavorite_other (deviceId : string) (device : BLEDevice.t) :
  BLEDevice.id device <> deviceId ->
  ScannerScreen.flipFavorite deviceId device = device.
Proof.
  intros Hne. unfold ScannerScreen.flipFavorite.
  destruct (String.eqb_spec (BLEDevice.id device) deviceId); [contradiction | reflexivity].
Qed.

(** X17.  One press on a favourite control.  The list keeps its identifiers
    and their order, records of other identifiers are unchanged, and the
    records of the pressed identifier have their flag inverted.  When the
    write is accepted the store then holds exactly the identifiers of the
    favourite records of the list, so an identifier stored before that has
    no record in the list is no longer stored; when the write is rejected
    the store is unchanged while the list is updated all the same. *)
Theorem press_favorite (deviceId : string) (devices : list BLEDevice.t)
    (storage : AsyncStorage) :
  let accepted := ScannerScreen.pressFavorite deviceId true (devices, storage) in
  let rejected := ScannerScreen.pressFavorite deviceId false (devices, storage) in
  map BLEDevice.id (fst accepted) = map BLEDevice.id devices
  /\ (forall (i : nat) (r : BLEDevice.t),
        devices !! i = Some r ->
        fst accepted !! i
        = Some (if String.eqb (BLEDevice.id r) deviceId
                then BLEDevice.with_isFavorite (negb (BLEDevice.isFavorite r)) r
                else r))
  /\ loadFavorites (snd accepted)
     = map BLEDevice.id (List.filter BLEDevice.isFavorite (fst accepted))
  /\ (forall x : string,
        x ∈ loadFavorites (snd accepted) -> x ∈ map BLEDevice.id devices)
  /\ fst rejected = fst accepted
  /\ snd rejected = storage.
Proof.
  cbv zeta. unfold ScannerScreen.pressFavorite, ScannerScreen.toggleFavorite.
  cbn [fst snd]. rewrite loadFavorites_saved.
  split; [| split; [| split; [reflexivity | split; [| split; reflexivity]]]].
  - rewrite map_map. apply map_ext. intros r. apply flipFavorite_id.
  - intros i r Hlook.
    change (map (ScannerScreen.flipFavorite deviceId) devices)
      with (ScannerScreen.flipFavorite deviceId <$> devices).
    rewrite list_lookup_fmap, Hlook. reflexivity.
  - intros x Hin.
    apply list_elem_of_fmap in Hin as (r & -> & Hin).
    apply list_elem_of_In, filter_In in Hin as [Hin _].
    apply list_elem_of_In in Hin.
    change (map (ScannerScreen.flipFavorite deviceId) devices)
      with (ScannerScreen.flipFavorite deviceId <$> devices) in Hin.
    apply list_elem_of_fmap in Hin as (r0 & -> & Hin0).
    rewrite flipFavorite_id. apply list_elem_of_fmap. eauto.
Qed.

Lemma includesId_elem_of (ids : list string) (x : string) :
  DeviceList.includesId ids x = true <-> x ∈ ids.
Proof.
  unfold DeviceList.includesId. rewrite existsb_exists. split.
  - intros (y & Hin & Heq). apply String.eqb_eq in Heq. subst.
    now apply list_elem_of_In.
  - intros Hin. exists x. split; [now apply list_elem_of_In | apply String.eqb_refl].
Qed.




End FavoritesStore.

Section FavoritesScreenProperties.

Import RealBLEService.

Local Open Scope list_scope.

(** The favourites listener is the map screen's merge of the record marked
    as favourite, behind the membership test. *)
Lemma favorites_merge_unfold (favoriteIds : list string) (device : BLEDevice.t)
    (prev : list BLEDevice.t) :
  FavoritesScreen.onDeviceFound favoriteIds device prev
  = if DeviceList.includesId favoriteIds (BLEDevice.id device)
    then MapScreen.onDeviceFound (BLEDevice.with_isFavorite true device) prev
    else prev.
Proof. reflexivity. Qed.

(** What every record of the favourites screen satisfies. *)
Let listed (favoriteIds : list string) (r : BLEDevice.t) : Prop :=
  BLEDevice.isFavorite r = true /\ BLEDevice.id r ∈ favoriteIds.

Lemma favorites_observe_keeps (favoriteIds : list string) (evs : list ScanEvent)
    (st : Session) :
  Forall (listed favoriteIds) (snd st) ->
  NoDup (map BLEDevice.id (snd st)) ->
  Forall (listed favoriteIds)
         (snd (observeAll (FavoritesScreen.onDeviceFound favoriteIds) evs st))
  /\ NoDup (map BLEDevice.id
              (snd (observeAll (FavoritesScreen.onDeviceFound favoriteIds) evs st))).
Proof.
  revert st. induction evs as [| ev evs IH]; intros [s l] Hall Hnd; [auto |].
  rewrite observeAll_cons.
  destruct ev as [| [d |] now]; simpl observe; try (apply IH; assumption).
  apply IH; simpl; rewrite favorites_merge_unfold;
    destruct (DeviceList.includesId favoriteIds _) eqn:E; try assumption.
  - apply map_merge_Forall; [| exact Hall].
    split; [reflexivity |]. now apply includesId_elem_of.
  - now apply map_merge_NoDup.
Qed.

(** X19.  The favourites screen only ever lists stored favourites.  Started
    from a list of favourite records with distinct identifiers that are all
    in the loaded list, a scan keeps the list that way: every record is
    marked as favourite, its identifier is in the loaded list, and
    identifiers are pairwise distinct.  An advertisement of a device outside
    the loaded list leaves the list as it is; an advertisement of a device
    in it leaves exactly one record of that device: the fresh one, marked. *)
Theorem favorites_screen_session (favoriteIds : list string)
    (evs : list ScanEvent) (st : Session) (device : Device.t) (now : Z) :
  Forall (fun r => BLEDevice.isFavorite r = true /\ BLEDevice.id r ∈ favoriteIds)
         (snd st) ->
  NoDup (map BLEDevice.id (snd st)) ->
  let before := observeAll (FavoritesScreen.onDeviceFound favoriteIds) evs st in
  let after := observe (FavoritesScreen.onDeviceFound favoriteIds) before
                       (ScanFound (Some device) now) in
  Forall (fun r => BLEDevice.isFavorite r = true /\ BLEDevice.id r ∈ favoriteIds)
         (snd after)
  /\ NoDup (map BLEDevice.id (snd after))
  /\ (Device.id device ∉ favoriteIds -> snd after = snd before)
  /\ (Device.id device ∈ favoriteIds ->
      recordsOf (Device.id device) (snd after)
      = [BLEDevice.with_isFavorite true (processBLEDevice now device)]).
Proof.
  intros Hall Hnd before after.
  destruct (favorites_observe_keeps favoriteIds evs st Hall Hnd) as [Hall' Hnd'].
  fold before in Hall', Hnd'.
  assert (Hafter : snd after
                   = FavoritesScreen.onDeviceFound favoriteIds
                       (processBLEDevice now device) (snd before)).
  { subst after. now destruct before. }
  rewrite Hafter, favorites_merge_unfold.
  change (BLEDevice.id (processBLEDevice now device)) with (Device.id device).
  destruct (DeviceList.includesId favoriteIds (Device.id device)) eqn:E.
  - apply includesId_elem_of in E.
    split; [apply map_merge_Forall; [split; [reflexivity | exact E] | exact Hall'] |].
    split; [now apply map_merge_NoDup |].
    split; [contradiction |]. intros _.
    now apply (map_merge_recordsOf
                 (BLEDevice.with_isFavorite true (processBLEDevice now device))).
  - split; [exact Hall' | split; [exact Hnd' | split; [reflexivity |]]].
    intros Hin. apply includesId_elem_of in Hin. congruence.
Qed.

Lemma favorites_screen_session_witness :
  recordsOf "A"
    (snd (observe (FavoritesScreen.onDeviceFound ["A"])
            (observeAll (FavoritesScreen.onDeviceFound ["A"])
               [ScanFound (Some Examples.littleEndianApple) 50]
               Examples.firstScan)
            (ScanFound (Some Examples.taggedPayload) 100)))
  = [BLEDevice.with_isFavorite true (processBLEDevice 100 Examples.taggedPayload)].
Proof.
  apply (favorites_screen_session ["A"]
           [ScanFound (Some Examples.littleEndianApple) 50]
           Examples.firstScan Examples.taggedPayload 100).
  - constructor.
  - constructor.
  - apply list_elem_of_here.
Defined.

Lemma remove_filter_recordsOf (deviceId : string) (l : list BLEDevice.t) :
  recordsOf deviceId
    (List.filter (fun d => negb (String.eqb (BLEDevice.id d) deviceId)) l) = [].
Proof.
  induction l as [| r l IH]; simpl; [reflexivity |].
  destruct (String.eqb (BLEDevice.id r) deviceId) eqn:E; simpl; [exact IH |].
  now rewrite E.
Qed.

Lemma remove_filter_idempotent (deviceId : string) (l : list BLEDevice.t) :
  List.filter (fun d => negb (String.eqb (BLEDevice.id d) deviceId))
    (List.filter (fun d => negb (String.eqb (BLEDevice.id d) deviceId)) l)
  = List.filter (fun d => negb (String.eqb (BLEDevice.id d) deviceId)) l.
Proof.
  induction l as [| r l IH]; simpl; [reflexivity |].
  destruct (String.eqb (BLEDevice.id r) deviceId) eqn:E; simpl; [exact IH |].
  now rewrite E, IH.
Qed.

(** X20.  The [Remove] button of the favourites screen.  The list is
    updated from its current state: no record of the removed identifier is
    left, the other records stay, in their order, and removing the same
    identifier again changes nothing in the list.  The store is written from
    the list of the render that opened the alert: an accepted write stores
    the identifiers of that list's records other than the removed one, in
    their order, so the removed identifier is no longer stored, and a
    favourite that the scan added to the list while the alert was open stays
    listed but is not stored.  When the list has not changed since the alert
    was opened, the store holds exactly the identifiers that remain listed.
    A rejected write leaves the store as it was. *)
Theorem remove_favorite (deviceId : string) (favorites prev : list BLEDevice.t)
    (storage : AsyncStorage) :
  let st := FavoritesScreen.removeFavorite favorites deviceId true (prev, storage) in
  recordsOf deviceId (fst st) = []
  /\ sublist (fst st) prev
  /\ (forall r : BLEDevice.t,
        r ∈ fst st <-> r ∈ prev /\ BLEDevice.id r <> deviceId)
  /\ sublist (loadFavorites (snd st)) (map BLEDevice.id favorites)
  /\ (forall x : string,
        x ∈ loadFavorites (snd st)
        <-> x ∈ map BLEDevice.id favorites /\ x <> deviceId)
  /\ (forall r : BLEDevice.t,
        r ∈ prev -> BLEDevice.id r <> deviceId ->
        BLEDevice.id r ∉ map BLEDevice.id favorites ->
        r ∈ fst st /\ BLEDevice.id r ∉ loadFavorites (snd st))
  /\ (favorites = prev -> loadFavorites (snd st) = map BLEDevice.id (fst st))
  /\ (forall (later : list BLEDevice.t) (write_ok : bool),
        fst (FavoritesScreen.removeFavorite later deviceId write_ok st) = fst st)
  /\ snd (FavoritesScreen.removeFavorite favorites deviceId false (prev, storage))
     = storage.
Proof.
  cbv zeta. unfold FavoritesScreen.removeFavorite.
  cbn [fst snd]. rewrite loadFavorites_saved.
  set (others := fun d : BLEDevice.t => negb (String.eqb (BLEDevice.id d) deviceId)).
  assert (Hmem : forall (l : list BLEDevice.t) (r : BLEDevice.t),
            r ∈ List.filter others l <-> r ∈ l /\ BLEDevice.id r <> deviceId).
  { intros l r. unfold others.
    rewrite !list_elem_of_In, filter_In, negb_true_iff, String.eqb_neq.
    reflexivity. }
  assert (Hsub : forall l : list BLEDevice.t, sublist (List.filter others l) l).
  { induction l as [| r l IH]; simpl; [constructor |].
    destruct (others r); now constructor. }
  assert (Hids : forall x : string,
            x ∈ map BLEDevice.id (List.filter others favorites)
            <-> x ∈ map BLEDevice.id favorites /\ x <> deviceId).
  { intros x. split.
    - intros Hin. apply list_elem_of_fmap in Hin as (r & -> & Hin).
      apply Hmem in Hin as [Hin Hne]. split; [| exact Hne].
      apply list_elem_of_fmap. eauto.
    - intros [Hin Hne]. apply list_elem_of_fmap in Hin as (r & -> & Hin).
      apply list_elem_of_fmap. exists r. split; [reflexivity |].
      apply Hmem. auto. }
  split; [apply remove_filter_recordsOf |].
  split; [apply Hsub |].
  split; [apply Hmem |].
  split; [apply (fmap_sublist BLEDevice.id), Hsub |].
  split; [exact Hids |].
  split; [| split; [| split]].
  - intros r Hin Hne Hnew. split; [now apply Hmem |].
    intros Hstored. apply Hids in Hstored as [Hstored _]. contradiction.
  - intros ->. reflexivity.
  - intros later write_ok. apply remove_filter_idempotent.
  - reflexivity.
Qed.

(** A favourite heard while the alert is open: the alert was opened on a
    list holding the record of "A" only, and the record of "C" was appended
    before [Remove] was pressed.  "C" stays listed and is no longer
    stored. *)
Lemma remove_favorite_witness :
  BLEDevice.with_isFavorite true (processBLEDevice 300 Examples.littleEndianApple)
    ∈ Examples.favoritesNow
  /\ "C" <> "A"
  /\ ("C" ∉ map BLEDevice.id Examples.favoritesOpened)
  /\ BLEDevice.with_isFavorite true (processBLEDevice 300 Examples.littleEndianApple)
       ∈ fst (FavoritesScreen.removeFavorite Examples.favoritesOpened "A" true
                (Examples.favoritesNow, Examples.twoFavorites))
  /\ ("C" ∉ loadFavorites
              (snd (FavoritesScreen.removeFavorite Examples.favoritesOpened "A" true
                      (Examples.favoritesNow, Examples.twoFavorites)))).
Proof.
  assert (Hin : BLEDevice.with_isFavorite true
                  (processBLEDevice 300 Examples.littleEndianApple)
                  ∈ Examples.favoritesNow)
    by (apply list_elem_of_further, list_elem_of_here).
  assert (Hne : "C" <> "A") by discriminate.
  assert (Hnew : "C" ∉ map BLEDevice.id Examples.favoritesOpened).
  { intros H. apply list_elem_of_singleton in H. discriminate H. }
  split; [exact Hin | split; [exact Hne | split; [exact Hnew |]]].
  destruct (remove_favorite "A" Examples.favoritesOpened Examples.favoritesNow
              Examples.twoFavorites) as (_ & _ & _ & _ & _ & Hlate & _).
  exact (Hlate _ Hin Hne Hnew).
Defined.

(** Loading the favourites into the favourites screen keeps exactly
    the records whose identifier is stored, in their order; it never adds a
    record, so a stored favourite that has not been heard is not listed. *)
Lemma favorites_screen_load (favoriteIds : list string) (prev : list BLEDevice.t) :
  (forall r : BLEDevice.t,
     r ∈ FavoritesScreen.loadFavorites favoriteIds prev
     <-> r ∈ prev /\ BLEDevice.id r ∈ favoriteIds)
  /\ FavoritesScreen.loadFavorites favoriteIds [] = []
  /\ sublist (FavoritesScreen.loadFavorites favoriteIds prev) prev
  /\ FavoritesScreen.loadFavorites favoriteIds
       (FavoritesScreen.loadFavorites favoriteIds prev)
     = FavoritesScreen.loadFavorites favoriteIds prev.
Proof.
  unfold FavoritesScreen.loadFavorites. split; [| split; [reflexivity | split]].
  - intros r. rewrite <- includesId_elem_of, !list_elem_of_In, filter_In.
    reflexivity.
  - induction prev as [| r l IH]; simpl; [constructor |].
    destruct (DeviceList.includesId _ _); now constructor.
  - induction prev as [| r l IH]; simpl; [reflexivity |].
    destruct (DeviceList.includesId _ _) eqn:E; simpl; [now rewrite E, IH | exact IH].
Qed.

End FavoritesScreenProperties.

(** * What the cards and alerts show *)

Section SignalWording.

Ltac bands :=
  repeat match goal with
         | |- context [(?a <? ?b)] => destruct (Z.ltb_spec a b)
         end.

Ltac settle :=
  try lia;
  split; intros;
  repeat match goal with H : _ \/ _ |- _ => destruct H end;
  try discriminate; try reflexivity; try lia;
  try (left; reflexivity); try (right; reflexivity).

(** X22.  On the device card the colour and the wording of the signal use
    the same five bands: two signals get the same colour exactly when they
    get the same wording.  The favourites screen colours with three bands
    only: its green is the card's green, its orange covers the card's light
    green and orange, its red the card's two reds. *)
Theorem signal_colour_matches_wording (s1 s2 : Z) :
  (DeviceCard.getSignalColor s1 = DeviceCard.getSignalColor s2
   <-> DeviceCard.getSignalStrength s1 = DeviceCard.getSignalStrength s2)
  /\ (FavoritesScreen.getSignalColor s1 = "#34C759"
      <-> DeviceCard.getSignalColor s1 = "#34C759")
  /\ (FavoritesScreen.getSignalColor s1 = "#FF9500"
      <-> DeviceCard.getSignalColor s1 = "#30D158"
          \/ DeviceCard.getSignalColor s1 = "#FF9500")
  /\ (FavoritesScreen.getSignalColor s1 = "#FF3B30"
      <-> DeviceCard.getSignalColor s1 = "#FF6B35"
          \/ DeviceCard.getSignalColor s1 = "#FF3B30").
Proof.
  unfold DeviceCard.getSignalColor, DeviceCard.getSignalStrength,
    FavoritesScreen.getSignalColor.
  split; [| split; [| split]]; bands; settle.
Qed.

(** X23.  The three-word signal quality of the map screen's alert (and of
    the favourites screen's) groups the card's five words: "Strong" is the
    card's "Excellent" or "Good", "Moderate" its "Fair", "Weak" its "Poor" or
    "Very Poor"; and a stronger signal never gets a weaker word. *)
Theorem signal_quality_groups_wording (s : Z) :
  (MapScreen.signalQuality s = "Strong"
   <-> DeviceCard.getSignalStrength s = "Excellent"
       \/ DeviceCard.getSignalStrength s = "Good")
  /\ (MapScreen.signalQuality s = "Moderate"
      <-> DeviceCard.getSignalStrength s = "Fair")
  /\ (MapScreen.signalQuality s = "Weak"
      <-> DeviceCard.getSignalStrength s = "Poor"
          \/ DeviceCard.getSignalStrength s = "Very Poor")
  /\ (forall s' : Z, s <= s' ->
        (MapScreen.signalQuality s = "Strong" -> MapScreen.signalQuality s' = "Strong")
        /\ (MapScreen.signalQuality s' = "Weak" -> MapScreen.signalQuality s = "Weak")).
Proof.
  unfold MapScreen.signalQuality, DeviceCard.getSignalStrength.
  split; [| split; [| split]]; [bands; settle .. |].
  intros s' Hle. bands; settle.
Qed.

Lemma string_length_append (s t : string) :
  String.length (s ++ t)%string = (String.length s + String.length t)%nat.
Proof. induction s as [| c s IH]; simpl; [reflexivity | now rewrite IH]. Qed.

Lemma append_length_lt (s t u : string) :
  (String.length u < String.length t)%nat -> (s ++ t)%string <> u.
Proof.
  intros Hlen Heq. apply (f_equal String.length) in Heq.
  rewrite string_length_append in Heq. lia.
Qed.

(** X24.  The age shown on a card, from the two clock readings in
    milliseconds.  "Live" is shown exactly when less than ten seconds have
    elapsed (a reading from the future included); from ten seconds to under
    a minute the whole seconds elapsed are shown, between 10 and 59; from a
    minute on the whole minutes elapsed, at least 1.  The status badge of a
    record that is not connected says "Live" in the first case and
    "Discovered" otherwise. *)
Theorem last_seen_wording (now lastSeen : Z) :
  let elapsed := now - lastSeen in
  (DeviceCard.lastSeenText now lastSeen = "Live" <-> elapsed < 10000)
  /\ (10000 <= elapsed < 60000 ->
      exists t : Z,
        10 <= t <= 59 /\ 1000 * t <= elapsed < 1000 * (t + 1)
        /\ DeviceCard.lastSeenText now lastSeen
           = (DeviceList.decimal t ++ "s ago")%string)
  /\ (60000 <= elapsed ->
      exists m : Z,
        1 <= m /\ 60000 * m <= elapsed < 60000 * (m + 1)
        /\ DeviceCard.lastSeenText now lastSeen
           = (DeviceList.decimal m ++ "m ago")%string)
  /\ (forall device : BLEDevice.t,
        BLEDevice.isConnected device = false ->
        BLEDevice.lastSeen device = lastSeen ->
        DeviceCard.statusText now device
        = if elapsed <? 10000 then "Live" else "Discovered").
Proof.
  cbv zeta. unfold DeviceCard.lastSeenText, DeviceCard.statusText,
    DeviceCard.timeSinceLastSeen.
  set (e := now - lastSeen).
  pose proof (Z.div_mod e 1000 ltac:(lia)) as Hdm.
  pose proof (Z.mod_pos_bound e 1000 ltac:(lia)) as Hmod.
  split; [| split; [| split]].
  - destruct (Z.ltb_spec (e / 1000) 10) as [Hlt | Hge].
    + split; [intros _; lia | reflexivity].
    + split; [| lia].
      destruct (Z.ltb_spec (e / 1000) 60); intros Heq; exfalso;
        revert Heq; apply append_length_lt; simpl; lia.
  - intros [Hlo Hhi]. exists (e / 1000).
    destruct (Z.ltb_spec (e / 1000) 10); [lia |].
    destruct (Z.ltb_spec (e / 1000) 60); [| lia].
    repeat split; lia.
  - intros Hlo. exists (e / 1000 / 60).
    destruct (Z.ltb_spec (e / 1000) 10); [lia |].
    destruct (Z.ltb_spec (e / 1000) 60); [lia |].
    rewrite Z.div_div by lia. change (1000 * 60) with 60000.
    pose proof (Z.div_mod e 60000 ltac:(lia)).
    pose proof (Z.mod_pos_bound e 60000 ltac:(lia)).
    assert (1 <= e / 60000) by (apply Z.div_le_lower_bound; lia).
    repeat split; lia.
  - intros device Hconn Hseen. rewrite Hconn, Hseen. fold e.
    destruct (Z.ltb_spec (e / 1000) 10), (Z.ltb_spec e 10000); (reflexivity || lia).
Qed.

Lemma last_seen_wording_witness :
  exists t : Z,
    DeviceCard.lastSeenText 42500 0 = (DeviceList.decimal t ++ "s ago")%string.
Proof.
  destruct (last_seen_wording 42500 0) as (_ & H & _).
  destruct H as (t & _ & _ & Ht); [lia |].
  exists t. exact Ht.
Defined.

End SignalWording.

Section DistanceBands.

Local Open Scope R_scope.

Import RealBLEService.

Lemma twentieth_root (c : R) : 0 < c -> Rpower (c ^ 20) (/ 20) = c.
Proof.
  intros Hc. rewrite <- (Rpower_pow 20 c Hc), Rpower_mult.
  replace (INR 20 * / 20) with 1 by (simpl; lra).
  now apply Rpower_1.
Qed.

Lemma Rpower10_twentieths (k : nat) : Rpower 10 (INR k / 20) = Rpower (10 ^ k) (/ 20).
Proof.
  rewrite <- (Rpower_pow k 10) by lra. rewrite Rpower_mult. reflexivity.
Qed.

(** Comparing a power of ten with exponent [k / 20] to a positive constant
    comes down to comparing two natural powers. *)
Lemma Rpower10_below (c : R) (k : nat) :
  0 < c -> 10 ^ k < c ^ 20 -> Rpower 10 (INR k / 20) < c.
Proof.
  intros Hc Hpow. rewrite Rpower10_twentieths, <- (twentieth_root c Hc) at 1.
  apply Rlt_Rpower_l; [lra |]. split; [apply pow_lt; lra | exact Hpow].
Qed.

Lemma Rpower10_above (c : R) (k : nat) :
  0 < c -> c ^ 20 < 10 ^ k -> c < Rpower 10 (INR k / 20).
Proof.
  intros Hc Hpow. rewrite Rpower10_twentieths, <- (twentieth_root c Hc) at 1.
  apply Rlt_Rpower_l; [lra |]. split; [apply pow_lt; lra | exact Hpow].
Qed.

Lemma ratio_of_nat (k : nat) : IZR (Z.of_nat k) / 20 = INR k / 20.
Proof. now rewrite INR_IZR_INZ. Qed.

(** For a threshold [c] that falls between two consecutive twentieth powers
    of ten, "closer than [c]" is a condition on the signal. *)
Lemma distance_below_iff (c : R) (k : nat) (rssi txPower : Z) :
  rssi <> 0%Z -> 1 / 10 < c <= 100 ->
  Rpower 10 (INR k / 20) < c -> c <= Rpower 10 (INR (S k) / 20) ->
  calculateDistance rssi txPower < c <-> (txPower - rssi <= Z.of_nat k)%Z.
Proof.
  intros Hnz [Hc1 Hc2] Hlow Hhigh.
  rewrite calculateDistance_nonzero by assumption.
  set (ratio := (IZR txPower - IZR rssi) / 20). split.
  - intros Hlt.
    destruct (Z_le_gt_dec (txPower - rssi) (Z.of_nat k)) as [| Hgt]; [assumption |].
    exfalso.
    assert (Hr : INR (S k) / 20 <= ratio).
    { rewrite <- ratio_of_nat. apply ratio_ge. lia. }
    apply Rpower10_mono in Hr. revert Hlt. unfold Rmax, Rmin.
    repeat destruct (Rle_dec _ _); lra.
  - intros Hle. apply ratio_le in Hle. rewrite ratio_of_nat in Hle.
    apply Rpower10_mono in Hle. fold ratio in Hle. unfold Rmax, Rmin.
    repeat destruct (Rle_dec _ _); lra.
Qed.

Lemma distance_beyond_iff (c : R) (k : nat) (rssi txPower : Z) :
  rssi <> 0%Z -> 1 / 10 <= c < 100 ->
  Rpower 10 (INR k / 20) <= c -> c < Rpower 10 (INR (S k) / 20) ->
  c < calculateDistance rssi txPower <-> (Z.of_nat k < txPower - rssi)%Z.
Proof.
  intros Hnz [Hc1 Hc2] Hlow Hhigh.
  rewrite calculateDistance_nonzero by assumption.
  set (ratio := (IZR txPower - IZR rssi) / 20). split.
  - intros Hlt.
    destruct (Z_lt_le_dec (Z.of_nat k) (txPower - rssi)) as [| Hle]; [assumption |].
    exfalso. apply ratio_le in Hle. rewrite ratio_of_nat in Hle.
    apply Rpower10_mono in Hle. fold ratio in Hle. revert Hlt. unfold Rmax, Rmin.
    repeat destruct (Rle_dec _ _); lra.
  - intros Hgt.
    assert (Hr : INR (S k) / 20 <= ratio).
    { rewrite <- ratio_of_nat. apply ratio_ge. lia. }
    apply Rpower10_mono in Hr. unfold Rmax, Rmin.
    repeat destruct (Rle_dec _ _); lra.
Qed.

Ltac natural_powers := rewrite !pow_IZR; apply IZR_lt; reflexivity.

Lemma band_2 : Rpower 10 (INR 6 / 20) < 2 <= Rpower 10 (INR 7 / 20).
Proof.
  split; [apply Rpower10_below | left; apply Rpower10_above];
    (lra || natural_powers).
Qed.

Lemma band_5 : Rpower 10 (INR 13 / 20) < 5 <= Rpower 10 (INR 14 / 20).
Proof.
  split; [apply Rpower10_below | left; apply Rpower10_above];
    (lra || natural_powers).
Qed.

Lemma band_10 : Rpower 10 (INR 19 / 20) < 10 <= Rpower 10 (INR 20 / 20).
Proof.
  split.
  - apply Rpower10_below; (lra || natural_powers).
  - right. replace (INR 20 / 20) with 1 by (simpl; lra).
    symmetry. apply Rpower_1. lra.
Qed.

Lemma band_20 : Rpower 10 (INR 26 / 20) < 20 <= Rpower 10 (INR 27 / 20).
Proof.
  split; [apply Rpower10_below | left; apply Rpower10_above];
    (lra || natural_powers).
Qed.

Lemma band_50 : Rpower 10 (INR 33 / 20) <= 50 < Rpower 10 (INR 34 / 20).
Proof.
  split; [left; apply Rpower10_below | apply Rpower10_above];
    (lra || natural_powers).
Qed.

(** X25.  The colour of the distance on a card, read off the signal.  For a
    record of the pipeline the distance is shown in green when the stored
    signal is -65 dBm or stronger, in light green down to -72, in orange down
    to -78, in red-orange down to -85, and in red below. *)
Theorem distance_colour_by_signal (now : Z) (device : Device.t) :
  let record := processBLEDevice now device in
  let signal := BLEDevice.signalStrength record in
  DeviceCard.getDistanceColor (BLEDevice.distance record)
  = if (-65 <=? signal)%Z then "#34C759"%string
    else if (-72 <=? signal)%Z then "#30D158"%string
    else if (-78 <=? signal)%Z then "#FF9500"%string
    else if (-85 <=? signal)%Z then "#FF6B35"%string
    else "#FF3B30"%string.
Proof.
  cbv zeta. simpl.
  set (signal := rssiOrDefault (Device.rssi device)).
  pose proof (rssiOrDefault_nonzero (Device.rssi device)) as Hnz. fold signal in Hnz.
  pose proof (distance_below_iff 2 6 signal defaultTxPower Hnz ltac:(lra)
                (proj1 band_2) (proj2 band_2)) as H2.
  pose proof (distance_below_iff 5 13 signal defaultTxPower Hnz ltac:(lra)
                (proj1 band_5) (proj2 band_5)) as H5.
  pose proof (distance_below_iff 10 19 signal defaultTxPower Hnz ltac:(lra)
                (proj1 band_10) (proj2 band_10)) as H10.
  pose proof (distance_below_iff 20 26 signal defaultTxPower Hnz ltac:(lra)
                (proj1 band_20) (proj2 band_20)) as H20.
  unfold defaultTxPower in *. unfold DeviceCard.getDistanceColor.
  set (d := calculateDistance signal (-59)) in *.
  destruct (Rlt_dec d 2) as [L2 | L2]; rewrite H2 in L2;
    [| destruct (Rlt_dec d 5) as [L5 | L5]; rewrite H5 in L5;
       [| destruct (Rlt_dec d 10) as [L10 | L10]; rewrite H10 in L10;
          [| destruct (Rlt_dec d 20) as [L20 | L20]; rewrite H20 in L20]]];
    repeat match goal with
           | |- context [(?a <=? ?b)%Z] => destruct (Z.leb_spec a b)
           end;
    (reflexivity || lia).
Qed.

End DistanceBands.

Section Locating.

Local Open Scope R_scope.

Import RealBLEService.

(** X26.  "Device too far".  For a record as the pipeline produces it (never
    connected) the favourites screen answers a request to locate it with the
    "too far" alert exactly when the stored signal is -93 dBm or weaker, the
    default of -100 for a missing signal included; for a stronger signal it
    shows the location alert with the signal quality of that signal. *)
Theorem too_far_by_signal (now : Z) (device : Device.t) :
  let record := processBLEDevice now device in
  let signal := BLEDevice.signalStrength record in
  FavoritesScreen.locateDevice record
  = if (signal <=? -93)%Z then FavoritesScreen.DeviceTooFar
    else FavoritesScreen.DeviceLocation (MapScreen.signalQuality signal).
Proof.
  cbv zeta. unfold FavoritesScreen.locateDevice. simpl.
  set (signal := rssiOrDefault (Device.rssi device)).
  pose proof (rssiOrDefault_nonzero (Device.rssi device)) as Hnz. fold signal in Hnz.
  pose proof (distance_beyond_iff 50 33 signal defaultTxPower Hnz ltac:(lra)
                (proj1 band_50) (proj2 band_50)) as H50.
  unfold defaultTxPower in *.
  destruct (Rlt_dec 50 (calculateDistance signal (-59))) as [L | L];
    rewrite H50 in L; destruct (Z.leb_spec signal (-93)); (reflexivity || lia).
Qed.

(** X27.  The marker of a device on the map lies on the circle around the
    user whose radius is the record's distance divided by 111320, whatever
    value is drawn; for a record of the pipeline neither coordinate is moved
    by more than 100 / 111320 of a degree. *)
Theorem estimated_location_on_circle (random : R) (record : BLEDevice.t)
    (userLoc : RealMapView.Coordinate) :
  let estimate := RealMapView.estimateDeviceLocation random record userLoc in
  let dlat := RealMapView.latitude estimate - RealMapView.latitude userLoc in
  let dlon := RealMapView.longitude estimate - RealMapView.longitude userLoc in
  dlat * dlat + dlon * dlon
  = (BLEDevice.distance record / 111320) * (BLEDevice.distance record / 111320)
  /\ (forall (now : Z) (device : Device.t),
        record = processBLEDevice now device ->
        Rabs dlat <= 100 / 111320 /\ Rabs dlon <= 100 / 111320).
Proof.
  cbv zeta. unfold RealMapView.estimateDeviceLocation. simpl.
  set (angle := random * 2 * PI).
  set (r := BLEDevice.distance record / 111320).
  pose proof (sin2_cos2 angle) as Hunit. unfold Rsqr in Hunit.
  split; [nra |].
  intros now device ->.
  pose proof (rssiOrDefault_nonzero (Device.rssi device)) as Hnz.
  pose proof (calculateDistance_range _ defaultTxPower Hnz) as [Hlo Hhi].
  assert (Hr : 0 <= r <= 100 / 111320).
  { subst r. simpl. lra. }
  pose proof (COS_bound angle) as [Hc1 Hc2].
  pose proof (SIN_bound angle) as [Hs1 Hs2].
  split; apply Rabs_le; split; nra.
Qed.

Lemma estimated_location_on_circle_witness :
  Rabs (RealMapView.latitude
          (RealMapView.estimateDeviceLocation (1 / 4)
             (processBLEDevice 5%Z Examples.taggedPayload)
             (RealMapView.mkCoordinate 52 13))
        - RealMapView.latitude (RealMapView.mkCoordinate 52 13))
  <= 100 / 111320.
Proof.
  apply (proj2 (estimated_location_on_circle (1 / 4)
                  (processBLEDevice 5%Z Examples.taggedPayload)
                  (RealMapView.mkCoordinate 52 13)) 5%Z Examples.taggedPayload).
  reflexivity.
Defined.

(** The web fallback of the map lists at most five devices, the first
    five of the list, and announces the others: the devices shown and the
    number announced add up to the number of devices, and nothing is
    announced for five devices or fewer. *)
Lemma web_list_accounts_for_all (devices : list BLEDevice.t) :
  (length (RealMapView.webShown devices) <= 5)%nat
  /\ (exists rest, devices = RealMapView.webShown devices ++ rest)%list
  /\ (length (RealMapView.webShown devices)
      + match RealMapView.webMore devices with Some n => n | None => 0%nat end
      = length devices)%nat
  /\ (RealMapView.webMore devices = None <-> (length devices <= 5)%nat).
Proof.
  unfold RealMapView.webShown, RealMapView.webMore.
  rewrite length_firstn.
  split; [lia |]. split; [exists (skipn 5 devices); now rewrite firstn_skipn |].
  destruct (Nat.ltb_spec 5 (length devices)); split; try lia;
    split; (discriminate || lia || reflexivity).
Qed.

End Locating.

(** * The rules after the Apple block *)

Section LaterRules.

Import RealBLEService.

(** X28.  The audio rule comes before the Android rule and both come after
    the Apple rules: a device is classified as headphones exactly when no
    Apple rule classifies it and the audio rule holds, as an Android phone
    exactly when in addition the audio rule fails and the Android rule
    holds, and as unknown exactly when no rule holds. *)
Theorem later_rules (device : Device.t) :
  let byApple := identifyDeviceType device = airtag
                 \/ identifyDeviceType device = iphone in
  let audio := isAudioDevice (uuidsOf device) (lowerName device) in
  let droid := isAndroidDevice (Device.manufacturerData device) (lowerName device) in
  (identifyDeviceType device = headphones <-> ~ byApple /\ audio = true)
  /\ (identifyDeviceType device = android
      <-> ~ byApple /\ audio = false /\ droid = true)
  /\ (identifyDeviceType device = unknown
      <-> ~ byApple /\ audio = false /\ droid = false).
Proof.
  cbv zeta.
  assert (Hlater :
    (identifyDeviceType device = airtag \/ identifyDeviceType device = iphone)
    \/ identifyDeviceType device
       = if isAudioDevice (uuidsOf device) (lowerName device) then headphones
         else if isAndroidDevice (Device.manufacturerData device) (lowerName device)
              then android
         else unknown).
  { destruct (identifyDeviceType_cases device) as [(data & _ & _ & Heq) | (_ & Heq)];
      [| now right].
    rewrite Heq. destruct (isAirTag _ _); [left; now left |].
    destruct (isIPhone _ _ _); [left; now right | now right]. }
  destruct Hlater as [Happle | Heq].
  - repeat split; intros; try tauto; destruct Happle; congruence.
  - rewrite Heq.
    destruct (isAudioDevice _ _), (isAndroidDevice _ _);
      repeat split; intros;
      repeat match goal with
             | H : _ /\ _ |- _ => destruct H
             end;
      try discriminate; try reflexivity;
      intros [Hx | Hx]; discriminate Hx.
Qed.

End LaterRules.

(** * The properties above at concrete inputs *)

Section Instances.

Import RealBLEService.

Local Open Scope list_scope.

Lemma extractManufacturer_apple_witness :
  extractManufacturer (Device.mk "K" None None None (Some "AA==") None) = "Unknown".
Proof.
  apply (proj2 (extractManufacturer_apple
                  (Device.mk "K" None None None (Some "AA==") None)) "AA==").
  right. split; [reflexivity | simpl; lia].
Defined.

Lemma apple_type_unknown_manufacturer_witness :
  BLEDevice.manufacturer (processBLEDevice 3 Examples.taggedPayload) = "Unknown".
Proof.
  apply (proj1 (apple_type_unknown_manufacturer 3 Examples.taggedPayload)).
  left. reflexivity.
Defined.

Lemma session_ignores_errors_witness :
  isScanning
    (fst (observeAll MapScreen.onDeviceFound
            [ScanFound (Some Examples.taggedPayload) 1; ScanFailed;
             ScanFound (Some Examples.noSignal) 2]
            Examples.firstScan))
  = false.
Proof.
  apply (session_ignores_errors MapScreen.onDeviceFound
           [ScanFound (Some Examples.taggedPayload) 1; ScanFailed;
            ScanFound (Some Examples.noSignal) 2]
           Examples.firstScan).
  apply list_elem_of_further, list_elem_of_here.
Defined.

Lemma press_favorite_witness :
  fst (ScannerScreen.pressFavorite "A" true
         (Examples.oneDeviceList, Examples.staleStorage)) !! 0%nat
  = Some (BLEDevice.with_isFavorite true (processBLEDevice 100 Examples.taggedPayload)).
Proof.
  destruct (press_favorite "A" Examples.oneDeviceList Examples.staleStorage)
    as (_ & H & _).
  apply (H 0%nat (processBLEDevice 100 Examples.taggedPayload)). reflexivity.
Defined.

Lemma signal_quality_groups_wording_witness :
  MapScreen.signalQuality (-41) = "Strong".
Proof.
  destruct (signal_quality_groups_wording (-58)) as (_ & _ & _ & H).
  apply (H (-41)); [lia | reflexivity].
Defined.

End Instances.
